(** * Case records and the consistency coordinator

    A shallow embedding of [models/case_model.py] (the [CaseData] record and
    its progress-stage operations) and of [controllers/case_controller.py]
    (the [CaseController] sagas over the metadata store, the folder tree and
    the derived artefacts), with the properties the specification states
    about them. *)

From Stdlib Require Import String Ascii List Bool Arith NArith Lia.
From Stdlib Require Import Sorted Permutation.
Import ListNotations.
Open Scope string_scope.
Open Scope list_scope.

Set Implicit Arguments.

(** ** Python values

    A Python [str] is carried as the Rocq [string] of its UTF-8 encoding.
    UTF-8 is injective and keeps the order of code points, so [==] is
    [String.eqb] and [<] on [str] (code point by code point) is the
    byte-wise [String.ltb]. *)
Module Py.

(** [bool(s)] for an [Optional[str]]: [None] and [''] are false. *)
Definition truthy (s : option string) : bool :=
  match s with
  | None => false
  | Some s => negb (s =? "")
  end.

(** A reading of [datetime.now()], kept as the two renderings the program
    asks of it: [strftime('%Y-%m-%d')] and [isoformat()]. *)
Record datetime := mk_datetime { strftime_ymd : string; isoformat : string }.

Section Sorted.
Variable A : Type.
Variable key : A -> string.

(** One step of a stable descending insertion: [x] stood before every
    element of [l] in the input, so it goes in front of the first element
    whose key is not greater than its own. *)
Fixpoint insert_desc (x : A) (l : list A) : list A :=
  match l with
  | [] => [x]
  | y :: r => if key y <=? key x then x :: l else y :: insert_desc x r
  end.

(** [sorted(l, key=key, reverse=True)]. Python's sort is stable, also under
    [reverse=True] (elements with equal keys keep their input order), so the
    result is the one list every stable descending sort returns. *)
Definition sorted_reverse (l : list A) : list A :=
  fold_right insert_desc [] l.

End Sorted.

End Py.

(** ** Python dictionaries with string keys and values

    A [dict] keeps its keys in insertion order, which [items()] exposes and
    on which the stable sort of [remove_progress_stage] depends; hence an
    association list, oldest key first. *)
Module Dict.

Definition dict := list (string * string).

Definition empty : dict := [].

(** [bool(d)] *)
Definition truthy (d : dict) : bool :=
  match d with
  | [] => false
  | _ :: _ => true
  end.

(** [k in d] *)
Fixpoint contains (k : string) (d : dict) : bool :=
  match d with
  | [] => false
  | (k', _) :: r => (k' =? k) || contains k r
  end.

(** [d.get(k)] *)
Fixpoint get (k : string) (d : dict) : option string :=
  match d with
  | [] => None
  | (k', v) :: r => if k' =? k then Some v else get k r
  end.

(** [d[k] = v]: an existing key keeps its place, a new one goes last. *)
Fixpoint setitem (k v : string) (d : dict) : dict :=
  match d with
  | [] => [(k, v)]
  | (k', v') :: r => if k' =? k then (k', v) :: r else (k', v') :: setitem k v r
  end.

(** [del d[k]], which the program only runs under the guard [k in d]. *)
Definition delitem (k : string) (d : dict) : dict :=
  filter (fun kv => negb (fst kv =? k)) d.

(** [d.items()] *)
Definition items (d : dict) : list (string * string) := d.

Definition keys (d : dict) : list string := map fst d.

End Dict.

(** ** [models/case_model.py] *)
Module CaseModel.
Import Py.

Record CaseData := mk_CaseData {
  case_id : string;
  case_type : string;
  client : string;
  lawyer : option string;
  legal_affairs : option string;
  progress : string;
  case_reason : option string;
  case_number : option string;
  opposing_party : option string;
  court : option string;
  division : option string;
  progress_date : option string;
  progress_stages : Dict.dict;
  progress_notes : Dict.dict;
  progress_times : Dict.dict;
  created_date : datetime;
  updated_date : datetime
}.

(** The part of a record the stage operations write: everything else is
    copied. *)
Definition with_progress_state (self : CaseData)
  (p : string) (pd : option string) (stages notes times : Dict.dict)
  (updated : datetime) : CaseData :=
  {| case_id := case_id self; case_type := case_type self;
     client := client self; lawyer := lawyer self;
     legal_affairs := legal_affairs self; progress := p;
     case_reason := case_reason self; case_number := case_number self;
     opposing_party := opposing_party self; court := court self;
     division := division self; progress_date := pd;
     progress_stages := stages; progress_notes := notes;
     progress_times := times; created_date := created_date self;
     updated_date := updated |}.

(** The constructor with the dataclass defaults: [progress = "待處理"] and no
    stage. [__post_init__] reads the clock once for [created_date] and once
    more for [updated_date]. *)
Definition new_case (created updated : datetime) (cid ctype cl : string) : CaseData :=
  {| case_id := cid; case_type := ctype; client := cl; lawyer := None;
     legal_affairs := None; progress := "待處理"; case_reason := None;
     case_number := None; opposing_party := None; court := None;
     division := None; progress_date := None;
     progress_stages := Dict.empty; progress_notes := Dict.empty;
     progress_times := Dict.empty; created_date := created;
     updated_date := updated |}.

(** The optional-text update shared by notes and times in
    [update_progress]: [if x: d[k] = x  elif k in d and not x: del d[k]]. *)
Definition set_or_drop (k : string) (x : option string) (d : Dict.dict) : Dict.dict :=
  match x with
  | Some v =>
      if negb (v =? "") then Dict.setitem k v d
      else if Dict.contains k d then Dict.delitem k d else d
  | None => if Dict.contains k d then Dict.delitem k d else d
  end.

(** [if x: d[k] = x], the update of [add_progress_stage]. *)
Definition set_if_given (k : string) (x : option string) (d : Dict.dict) : Dict.dict :=
  match x with
  | Some v => if negb (v =? "") then Dict.setitem k v d else d
  | None => d
  end.

(** [stage_date] or [progress_date] defaulting to today's date. *)
Definition date_or_today (today : datetime) (d : option string) : string :=
  match d with
  | Some d => d
  | None => strftime_ymd today
  end.

(** [CaseData.update_progress]. [today] and [now] are the two clock
    readings the method takes. *)
Definition update_progress (today now : datetime) (self : CaseData)
  (new_progress : string) (progress_date' note time : option string) : CaseData :=
  let d := date_or_today today progress_date' in
  with_progress_state self new_progress (Some d)
    (Dict.setitem new_progress d (progress_stages self))
    (set_or_drop new_progress note (progress_notes self))
    (set_or_drop new_progress time (progress_times self))
    now.

(** [CaseData.add_progress_stage] *)
Definition add_progress_stage (today now : datetime) (self : CaseData)
  (stage_name : string) (stage_date note time : option string) : CaseData :=
  let d := date_or_today today stage_date in
  with_progress_state self (progress self) (progress_date self)
    (Dict.setitem stage_name d (progress_stages self))
    (set_if_given stage_name note (progress_notes self))
    (set_if_given stage_name time (progress_times self))
    now.

(** [del d[k]] under its guard [if k in d]. *)
Definition drop (k : string) (d : Dict.dict) : Dict.dict :=
  if Dict.contains k d then Dict.delitem k d else d.

(** [CaseData.remove_progress_stage]: the returned flag and the record as
    the call leaves it. The three deletions come first; then, when the stage
    was the current progress, the current progress is chosen anew; the
    timestamp moves only when a stage record was removed.  [sorted_stages[0]]
    on an empty list would raise [IndexError], which the handler turns into
    [False] with the deletions already done. *)
Definition remove_progress_stage (now : datetime) (self : CaseData)
  (stage_name : string) : bool * CaseData :=
  let removed_anything := Dict.contains stage_name (progress_stages self) in
  let stages := drop stage_name (progress_stages self) in
  let notes := drop stage_name (progress_notes self) in
  let times := drop stage_name (progress_times self) in
  let finish (p : string) :=
    if removed_anything
    then (true, with_progress_state self p (progress_date self) stages notes times now)
    else (false, with_progress_state self p (progress_date self) stages notes times
                   (updated_date self)) in
  if stage_name =? progress self then
    if Dict.truthy stages then
      match sorted_reverse (@snd string string) (Dict.items stages) with
      | (k, _) :: _ => finish k
      | [] => (false, with_progress_state self (progress self) (progress_date self)
                        stages notes times (updated_date self))
      end
    else finish ""
  else finish (progress self).

(** The invariant of section 3 of the specification: a record with stages has
    one of them as its current progress. *)
Definition stage_invariant (c : CaseData) : Prop :=
  Dict.truthy (progress_stages c) = true ->
  Dict.contains (progress c) (progress_stages c) = true.

End CaseModel.

(** ** [controllers/case_controller.py]

    The controller owns no data: every method is control flow over its
    collaborators (the data manager, the validator, the import/export and
    progress managers, the folder manager) and the disk. Their code is not
    part of the controller, so they are parameters: a method of a
    collaborator is any function from the state of the world to an outcome
    and a new state of the world. *)
Module Controller.
Import Py CaseModel.

(** The exception classes the handlers tell apart: [AttributeError], and
    every other subclass of [Exception]; each with its [str(e)]. *)
Inductive exn :=
| AttributeError (msg : string)
| OtherException (msg : string).

Definition str_of_exn (e : exn) : string :=
  match e with
  | AttributeError m => m
  | OtherException m => m
  end.

(** A call either returns a value or raises. *)
Inductive outcome (A : Type) :=
| Returned (a : A)
| Raised (e : exn).
Arguments Returned {A} a.
Arguments Raised {A} e.

(** What a caller that treats an exception as a failure reads off an
    outcome. *)
Definition succeeded (o : outcome bool) : bool :=
  match o with
  | Returned b => b
  | Raised _ => false
  end.

(** The calls a controller method makes outside itself, in the order it
    makes them (ghost state: the trace of a run). *)
Inductive call :=
| dm_add_case_call
| dm_delete_case_call (case_id case_type : string)
| dm_update_case_id_with_files_call
| dm_get_cases_call
| dm_get_case_by_id_call
| dm_save_cases_call
| validate_case_id_update_call
| update_excel_content_call
| update_progress_files_call
| pm_add_progress_stage_call
| pm_update_progress_stage_call
| pm_remove_progress_stage_call
| fm_create_case_folder_structure_call
| creator_create_case_folder_structure_call
| fm_get_case_folder_path_call
| ops_get_case_folder_path_call
| fm_delete_case_folder_call
| ops_delete_case_folder_call
| os_path_exists_call (path : string) (found : bool)
| os_listdir_call (path : string)
| shutil_rmtree_call (path : string).

(** [posixpath.join]: an absolute component restarts the path, and a
    separator is put between components unless one is already there. *)
Definition starts_with_sep (s : string) : bool :=
  match s with
  | String c _ => Ascii.eqb c "/"
  | EmptyString => false
  end.

Fixpoint ends_with_sep (s : string) : bool :=
  match s with
  | EmptyString => false
  | String c EmptyString => Ascii.eqb c "/"
  | String _ r => ends_with_sep r
  end.

Definition join_step (path b : string) : string :=
  if starts_with_sep b then b
  else if (path =? "") || ends_with_sep path then (path ++ b)%string
  else (path ++ "/" ++ b)%string.

Definition os_path_join (a : string) (p : list string) : string :=
  fold_left join_step p a.

(** [AppConfig.CASE_TYPE_FOLDERS.get(case_type, case_type)] *)
Definition case_type_folder (table : Dict.dict) (case_data : CaseData) : string :=
  match Dict.get (case_type case_data) table with
  | Some folder => folder
  | None => case_type case_data
  end.

Section Collaborators.

(** The state of everything outside the controller: the metadata store, the
    managers' private state, the disk. *)
Variable World : Type.

Definition method (A : Type) : Type := World -> outcome A * World.

Record CaseDataManager := {
  dm_add_case : CaseData -> method bool;
  dm_delete_case : string -> string -> method bool;
  dm_update_case_id_with_files : string -> string -> string -> method (bool * string);
  dm_get_cases : method (list CaseData);
  dm_get_case_by_id : string -> method (option CaseData);
  dm_save_cases : method bool
}.

Record CaseValidator := {
  validate_case_id_update : string -> string -> string -> method (bool * string)
}.

Record CaseImportExport := {
  update_excel_content_for_case_id_change : string -> string -> method (bool * string)
}.

Record CaseProgressManager := {
  pm_add_progress_stage :
    string -> string -> string -> option string -> option string -> method bool;
  pm_update_progress_stage :
    string -> string -> string -> option string -> option string -> method bool;
  pm_remove_progress_stage : string -> string -> method bool;
  update_progress_files_for_case_id_change : string -> string -> method (bool * string)
}.

Record FolderOperations := {
  ops_get_case_folder_path : CaseData -> method (option string);
  ops_delete_case_folder : CaseData -> method (bool * string)
}.

Record FolderCreator := {
  creator_create_case_folder_structure : CaseData -> method (bool * string)
}.

(** A folder manager is probed with [hasattr] before use, so each of its
    attributes may be missing. *)
Record FolderManager := {
  fm_get_case_folder_path : option (CaseData -> method (option string));
  fm_create_case_folder_structure : option (CaseData -> method bool);
  fm_delete_case_folder : option (CaseData -> method bool);
  fm_operations : option FolderOperations;
  fm_creator : option FolderCreator
}.

(** The disk, as the controller reaches it through [os] and [shutil]. Looking
    is not a change of the world; [shutil.rmtree] is. *)
Record Disk := {
  os_path_exists : string -> World -> bool;
  os_listdir : string -> World -> outcome (list string);
  shutil_rmtree : string -> method unit
}.

(** The controller after [__init__]. [rebind_cases] is the effect of the two
    assignments of [_sync_managers] ([validator.cases] and
    [progress_manager.cases] set to [data_manager.cases]). *)
Record CaseController := {
  data_folder : string;
  CASE_TYPE_FOLDERS : Dict.dict;
  disk : Disk;
  folder_manager : FolderManager;
  data_manager : CaseDataManager;
  validator : CaseValidator;
  import_export : CaseImportExport;
  progress_manager : CaseProgressManager;
  rebind_cases : World -> World
}.

(** *** Runs: state, exceptions and the trace of calls *)

Definition M (A : Type) : Type := World -> outcome A * World * list call.

Definition ret {A : Type} (a : A) : M A := fun w => (Returned a, w, []).

Definition raise {A : Type} (e : exn) : M A := fun w => (Raised e, w, []).

Definition bind {A B : Type} (m : M A) (f : A -> M B) : M B := fun w =>
  match m w with
  | (Returned a, w1, t1) => let '(o, w2, t2) := f a w1 in (o, w2, t1 ++ t2)
  | (Raised e, w1, t1) => (Raised e, w1, t1)
  end.

(** [try: m  except Exception as e: h e]. What [m] did before raising
    stays done. *)
Definition try_except {A : Type} (m : M A) (h : exn -> M A) : M A := fun w =>
  match m w with
  | (Returned a, w1, t1) => (Returned a, w1, t1)
  | (Raised e, w1, t1) => let '(o, w2, t2) := h e w1 in (o, w2, t1 ++ t2)
  end.

(** A call of a collaborator's method, written to the trace. *)
Definition invoke {A : Type} (c : call) (m : method A) : M A := fun w =>
  let '(o, w1) := m w in (o, w1, [c]).

(** A call of an attribute that may be missing: [AttributeError] if it is. *)
Definition invoke_attr {A : Type} (c : call) (name : string) (m : option (method A)) : M A :=
  match m with
  | Some m => invoke c m
  | None => raise (AttributeError name)
  end.

(** The three components of a finished run. *)
Definition result {A : Type} (r : outcome A * World * list call) : outcome A := fst (fst r).
Definition final_world {A : Type} (r : outcome A * World * list call) : World := snd (fst r).
Definition trace {A : Type} (r : outcome A * World * list call) : list call := snd r.

End Collaborators.

(** The last call of a trace, and whether a trace holds a call of one of
    the three deletion primitives of [delete_case_folder]. *)
Fixpoint last_call (tr : list call) : option call :=
  match tr with
  | [] => None
  | [c] => Some c
  | _ :: r => last_call r
  end.

Definition is_deletion_call (c : call) : bool :=
  match c with
  | fm_delete_case_folder_call | ops_delete_case_folder_call | shutil_rmtree_call _ => true
  | _ => false
  end.

Definition deletion_attempted (tr : list call) : bool := existsb is_deletion_call tr.

Arguments ret {World A} a.
Arguments raise {World A} e.
Arguments bind {World A B} m f.
Arguments try_except {World A} m h.
Arguments invoke {World A} c m.
Arguments invoke_attr {World A} c name m.
Arguments result {World A} r.
Arguments final_world {World A} r.
Arguments trace {World A} r.

Declare Scope run_scope.
Delimit Scope run_scope with run.
Notation "x <- m ;; k" := (bind m (fun x => k))
  (at level 61, m at next level, right associativity) : run_scope.
Notation "' pat <- m ;; k" := (bind m (fun x => match x with pat => k end))
  (at level 61, pat pattern, m at next level, right associativity) : run_scope.
Notation "m ;; k" := (bind m (fun _ => k))
  (at level 61, right associativity) : run_scope.
Open Scope run_scope.

(** *** The folder managers the controller builds itself *)
Section FolderManagers.
Variable World : Type.
Variable os : Disk World.
Variable table : Dict.dict.

(** [BasicFolderManager.get_case_folder_path] of
    [_create_basic_folder_manager]. With text arguments nothing in its body
    raises, so its handler stays idle. *)
Definition basic_get_case_folder_path (base_data_folder : string)
  (case_data : CaseData) : method World (option string) := fun w =>
  let folder_path :=
    os_path_join base_data_folder [case_type_folder table case_data; client case_data] in
  (Returned (if os_path_exists os folder_path w then Some folder_path else None), w).

Definition _create_basic_folder_manager (data_folder : string) : FolderManager World :=
  {| fm_get_case_folder_path := Some (basic_get_case_folder_path data_folder);
     fm_create_case_folder_structure := None;
     fm_delete_case_folder := None;
     fm_operations := None;
     fm_creator := None |}.

(** The function [_patch_folder_manager] attaches to a manager that lacks
    [get_case_folder_path]. *)
Definition patched_get_case_folder_path (data_folder : string)
  (case_data : CaseData) : method World (option string) := fun w =>
  (Returned
     (Some (os_path_join data_folder [case_type_folder table case_data; client case_data])),
   w).

(** [_patch_folder_manager]. [attachable] tells whether the manager takes
    a new attribute: when the assignment raises, the handler of the method
    swallows the exception and the manager stays as it was. *)
Definition _patch_folder_manager (data_folder : string) (attachable : bool)
  (fm : FolderManager World) : FolderManager World :=
  match fm_get_case_folder_path fm with
  | Some _ => fm
  | None =>
      if attachable then
        {| fm_get_case_folder_path := Some (patched_get_case_folder_path data_folder);
           fm_create_case_folder_structure := fm_create_case_folder_structure fm;
           fm_delete_case_folder := fm_delete_case_folder fm;
           fm_operations := fm_operations fm;
           fm_creator := fm_creator fm |}
      else fm
  end.

(** How the import and construction of a folder manager in [__init__] ends:
    with a manager, with [ImportError], or with another exception. *)
Inductive construction :=
| Constructed (fm : FolderManager World)
| Import_failed
| Construction_failed (e : exn).

(** The folder manager of [__init__]: the new one; on [ImportError] the old
    one; on [ImportError] again the basic one. Any other exception of the two
    constructions leaves [__init__], which has no handler for it. A manager
    that is truthy ([truthy_manager]) and lacks [get_case_folder_path] is then
    patched. *)
Definition init_folder_manager (data_folder : string)
  (new_manager old_manager : construction) (truthy_manager attachable : bool)
  : FolderManager World + exn :=
  let chosen : FolderManager World + exn :=
    match new_manager with
    | Constructed fm => inl fm
    | Construction_failed e => inr e
    | Import_failed =>
        match old_manager with
        | Constructed fm => inl fm
        | Construction_failed e => inr e
        | Import_failed => inl (_create_basic_folder_manager data_folder)
        end
    end in
  match chosen with
  | inl fm =>
      match truthy_manager, fm_get_case_folder_path fm with
      | true, None => inl (_patch_folder_manager data_folder attachable fm)
      | _, _ => inl fm
      end
  | inr e => inr e
  end.

End FolderManagers.

(** *** The methods of [CaseController] *)
Section Methods.
Variable World : Type.
Variable self : CaseController World.



(** [_sync_managers]: it swallows every exception, so it always returns. *)
Definition _sync_managers : M World unit := fun w =>
  (Returned tt, rebind_cases self w, []).

Definition save_cases : M World bool :=
  result <- invoke dm_save_cases_call (dm_save_cases (data_manager self)) ;;
  if result : bool then _sync_managers ;; ret result else ret result.

Definition get_cases : M World (list CaseData) :=
  invoke dm_get_cases_call (dm_get_cases (data_manager self)).

Definition get_case_by_id (cid : string) : M World (option CaseData) :=
  invoke dm_get_case_by_id_call (dm_get_case_by_id (data_manager self) cid).

Definition get_case_by_id_and_type (cid ctype : string) : M World (option CaseData) :=
  try_except
    (all_cases <- get_cases ;;
     ret (find (fun case => (case_id case =? cid) && (case_type case =? ctype)) all_cases))
    (fun _ => ret None).

(** [add_case] *)
Definition add_case (case_data : CaseData) : M World bool :=
  try_except
    (result <- invoke dm_add_case_call (dm_add_case (data_manager self) case_data) ;;
     if result : bool then
       _sync_managers ;;
       try_except
         (folder_result <-
            invoke_attr fm_create_case_folder_structure_call "create_case_folder_structure"
              (option_map (fun f => f case_data)
                 (fm_create_case_folder_structure (folder_manager self))) ;;
          ret tt)
         (fun e =>
            match e with
            | AttributeError _ =>
                try_except
                  (match fm_creator (folder_manager self) with
                   | Some cr =>
                       ' (success, message) <-
                         invoke creator_create_case_folder_structure_call
                           (creator_create_case_folder_structure cr case_data) ;;
                       ret tt
                   | None => ret tt
                   end)
                  (fun _ => ret tt)
            | OtherException _ => ret tt
            end) ;;
       ret result
     else ret result)
    (fun _ => ret false).

(** The body of [delete_case_folder] once the path is known: the existence
    check, the three deletion attempts, and the check of the result. *)
Definition exists_on_disk (p : string) : M World bool := fun w =>
  let found := os_path_exists (disk self) p w in
  (Returned found, w, [os_path_exists_call p found]).

Definition listdir (p : string) : M World (list string) := fun w =>
  (os_listdir (disk self) p w, w, [os_listdir_call p]).

(** Attempt 1: [folder_manager.delete_case_folder], if the manager has it. *)
Definition delete_attempt_1 (case : CaseData) : M World bool :=
  match fm_delete_case_folder (folder_manager self) with
  | Some f => try_except (invoke fm_delete_case_folder_call (f case)) (fun _ => ret false)
  | None => ret false
  end.

(** Attempt 2: [folder_manager.operations.delete_case_folder], if attempt 1 did
    not succeed and the manager has operations. *)
Definition delete_attempt_2 (case : CaseData) (deletion_success : bool) : M World bool :=
  match negb deletion_success, fm_operations (folder_manager self) with
  | true, Some ops =>
      try_except
        (' (success, message) <-
           invoke ops_delete_case_folder_call (ops_delete_case_folder ops case) ;;
         ret success)
        (fun _ => ret deletion_success)
  | _, _ => ret deletion_success
  end.

(** Attempt 3: [shutil.rmtree], if nothing succeeded so far. *)
Definition delete_attempt_3 (p : string) (deletion_success : bool) : M World bool :=
  if negb deletion_success then
    try_except
      (invoke (shutil_rmtree_call p) (shutil_rmtree (disk self) p) ;; ret true)
      (fun _ => ret deletion_success)
  else ret deletion_success.

(** The check of the result: a success is kept only if the path is gone. *)
Definition verify_deletion (p : string) (deletion_success : bool) : M World bool :=
  if deletion_success then
    still_there <- exists_on_disk p ;;
    if still_there : bool then ret false else ret deletion_success
  else ret deletion_success.

(** The two ways [delete_case_folder] asks for the path. *)
Definition resolve_folder_path (case : CaseData) : M World (option string) :=
  folder_path <-
    match fm_get_case_folder_path (folder_manager self) with
    | Some f =>
        try_except (invoke fm_get_case_folder_path_call (f case)) (fun _ => ret None)
    | None => ret None
    end ;;
  match negb (truthy folder_path), fm_operations (folder_manager self) with
  | true, Some ops =>
      try_except
        (invoke ops_get_case_folder_path_call (ops_get_case_folder_path ops case))
        (fun _ => ret folder_path)
  | _, _ => ret folder_path
  end.

(** [delete_case_folder] *)
Definition delete_case_folder (cid : string) : M World bool :=
  try_except
    (case <- get_case_by_id cid ;;
     match case with
     | None => ret false
     | Some case =>
         folder_path <- resolve_folder_path case ;;
         match folder_path with
         | None => ret false
         | Some p =>
             if p =? "" then ret false
             else
               found <- exists_on_disk p ;;
               if negb found then ret true
               else
                 try_except (listdir p ;; ret tt) (fun _ => ret tt) ;;
                 s1 <- delete_attempt_1 case ;;
                 s2 <- delete_attempt_2 case s1 ;;
                 s3 <- delete_attempt_3 p s2 ;;
                 verify_deletion p s3
         end
     end)
    (fun _ => ret false).

(** The first step of [delete_case]: the record, by its id alone when no
    type is given and by id and type otherwise, with the type the deletion
    will use. *)
Definition find_case_to_delete (cid : string) (ctype : option string)
  : M World (option (CaseData * string)) :=
  match ctype with
  | None =>
      case <- get_case_by_id cid ;;
      ret (option_map (fun c => (c, case_type c)) case)
  | Some t =>
      case <- get_case_by_id_and_type cid t ;;
      ret (option_map (fun c => (c, t)) case)
  end.

(** [delete_case], over the method [self.delete_case_folder] resolves to. *)
Definition delete_case_with (delete_case_folder' : string -> M World bool)
  (cid : string) (ctype : option string) (delete_folder : bool) : M World bool :=
  try_except
    (found <- find_case_to_delete cid ctype ;;
     match found with
     | None => ret false
     | Some (case, ctype') =>
         folder_deletion_success <-
           (if delete_folder
            then try_except (delete_case_folder' cid) (fun _ => ret false)
            else ret true) ;;
         data_deletion_success <-
           invoke (dm_delete_case_call cid ctype')
             (dm_delete_case (data_manager self) cid ctype') ;;
         (if data_deletion_success : bool then _sync_managers else ret tt) ;;
         ret data_deletion_success
     end)
    (fun _ => ret false).

Definition delete_case : string -> option string -> bool -> M World bool :=
  delete_case_with delete_case_folder.

(** [update_case_id] *)
Definition update_case_id (old_case_id ctype new_case_id : string) : M World (bool * string) :=
  try_except
    (' (validation_success, validation_message) <-
       invoke validate_case_id_update_call
         (validate_case_id_update (validator self) old_case_id ctype new_case_id) ;;
     if negb validation_success then ret (false, validation_message)
     else
       ' (data_update_success, data_message) <-
         invoke dm_update_case_id_with_files_call
           (dm_update_case_id_with_files (data_manager self) old_case_id ctype new_case_id) ;;
       if negb data_update_success then ret (false, data_message)
       else
         ' (excel_update_success, excel_message) <-
           invoke update_excel_content_call
             (update_excel_content_for_case_id_change (import_export self)
                old_case_id new_case_id) ;;
         ' (progress_update_success, progress_message) <-
           invoke update_progress_files_call
             (update_progress_files_for_case_id_change (progress_manager self)
                old_case_id new_case_id) ;;
         _sync_managers ;;
         let result_parts :=
           [data_message]
             ++ (if excel_update_success : bool then ["Excel內容已更新"] else [])
             ++ (if progress_update_success : bool then ["進度檔案已更新"] else []) in
         ret (true, String.concat "，" result_parts))
    (fun e => ret (false, ("協調更新失敗: " ++ str_of_exn e)%string)).

(** The shape the three progress-stage methods share: the mutation, then
    the save. *)
Definition mutate_then_save (c : call) (mutation : method World bool) : M World bool :=
  try_except
    (result <- invoke c mutation ;;
     if result : bool then
       save_result <- save_cases ;;
       if save_result : bool then _sync_managers ;; ret true else ret false
     else ret false)
    (fun _ => ret false).

Definition add_case_progress_stage (cid stage_name stage_date : string)
  (note time : option string) : M World bool :=
  mutate_then_save pm_add_progress_stage_call
    (pm_add_progress_stage (progress_manager self) cid stage_name stage_date note time).

Definition update_case_progress_stage (cid stage_name stage_date : string)
  (note time : option string) : M World bool :=
  mutate_then_save pm_update_progress_stage_call
    (pm_update_progress_stage (progress_manager self) cid stage_name stage_date note time).

Definition remove_case_progress_stage (cid stage_name : string) : M World bool :=
  mutate_then_save pm_remove_progress_stage_call
    (pm_remove_progress_stage (progress_manager self) cid stage_name).

(** What section 4.3 asks of a progress-stage saga [saga] built on the
    mutation [mutation], logged as [c]: it succeeds exactly when the mutation
    and the save both returned true; after a successful mutation the save is
    the very next call, made on the world the mutation left; and after a
    failed mutation nothing else is called. *)
Definition commits_by_saving (c : call) (mutation : method World bool)
  (saga : M World bool) (w : World) : Prop :=
  let m := mutation w in
  let saved := dm_save_cases (data_manager self) (snd m) in
  let r := saga w in
  result r = Returned (succeeded (fst m) && succeeded (fst saved)) /\
  (succeeded (fst m) = true ->
   trace r = [c; dm_save_cases_call] /\
   (succeeded (fst saved) = false -> final_world r = snd saved)) /\
  (succeeded (fst m) = false -> trace r = [c] /\ final_world r = snd m).

(** [get_case_folder_path], the resolution used for reads. *)
Definition get_case_folder_path (cid : string) : M World (option string) :=
  try_except
    (case <- get_case_by_id cid ;;
     match case with
     | None => ret None
     | Some case =>
         invoke_attr fm_get_case_folder_path_call "get_case_folder_path"
           (option_map (fun f => f case) (fm_get_case_folder_path (folder_manager self)))
     end)
    (fun _ => ret None).

End Methods.

End Controller.

(** ** [models/case_model.py], the remaining methods *)
Module CaseModelMore.
Import Py CaseModel.

(** The update of [update_stage_note] and [update_stage_time]:
    [if x: d[k] = x  elif k in d: del d[k]]. *)
Definition set_or_clear (k x : string) (d : Dict.dict) : Dict.dict :=
  if negb (x =? "") then Dict.setitem k x d
  else if Dict.contains k d then Dict.delitem k d else d.

(** [CaseData.update_stage_note] *)
Definition update_stage_note (now : datetime) (self : CaseData)
  (stage_name note : string) : CaseData :=
  if Dict.contains stage_name (progress_stages self) then
    with_progress_state self (progress self) (progress_date self)
      (progress_stages self)
      (set_or_clear stage_name note (progress_notes self))
      (progress_times self) now
  else self.

(** [CaseData.update_stage_time] *)
Definition update_stage_time (now : datetime) (self : CaseData)
  (stage_name time : string) : CaseData :=
  if Dict.contains stage_name (progress_stages self) then
    with_progress_state self (progress self) (progress_date self)
      (progress_stages self) (progress_notes self)
      (set_or_clear stage_name time (progress_times self)) now
  else self.

(** [d.get(k, "")] *)
Definition get_or_empty (k : string) (d : Dict.dict) : string :=
  match Dict.get k d with
  | Some v => v
  | None => ""
  end.

(** [CaseData.get_stage_time] and [CaseData.get_stage_note] *)
Definition get_stage_time (self : CaseData) (stage_name : string) : string :=
  get_or_empty stage_name (progress_times self).

Definition get_stage_note (self : CaseData) (stage_name : string) : string :=
  get_or_empty stage_name (progress_notes self).

(** [CaseData.update_stage_date] *)
Definition update_stage_date (now : datetime) (self : CaseData)
  (stage_name new_date : string) : CaseData :=
  if Dict.contains stage_name (progress_stages self) then
    with_progress_state self (progress self)
      (if stage_name =? progress self then Some new_date else progress_date self)
      (Dict.setitem stage_name new_date (progress_stages self))
      (progress_notes self) (progress_times self) now
  else self.

Section SortedAscending.
Variable A : Type.
Variable key : A -> string.

(** One step of a stable ascending insertion: [x] stood before every element
    of [l] in the input, so it goes in front of the first element whose key
    is not smaller than its own. *)
Fixpoint insert_asc (x : A) (l : list A) : list A :=
  match l with
  | [] => [x]
  | y :: r => if key x <=? key y then x :: l else y :: insert_asc x r
  end.

(** [sorted(l, key=key)], the stable ascending sort. *)
Definition sorted (l : list A) : list A := fold_right insert_asc [] l.

End SortedAscending.

(** The key of [get_ordered_stages]: [x[1] if x[1] else '9999-12-31']. *)
Definition ordering_date (x : string * string) : string :=
  if negb (snd x =? "") then snd x else "9999-12-31".

(** [CaseData.get_ordered_stages] *)
Definition get_ordered_stages (self : CaseData) : list (string * string) :=
  sorted ordering_date (Dict.items (progress_stages self)).

(** The invariant of section 3 on notes and times: only recorded stages
    carry one. *)
Definition annotations_within_stages (c : CaseData) : Prop :=
  forall k,
    (Dict.contains k (progress_notes c) = true ->
     Dict.contains k (progress_stages c) = true) /\
    (Dict.contains k (progress_times c) = true ->
     Dict.contains k (progress_stages c) = true).

(** [progress_date] is the date recorded for the current progress. *)
Definition date_is_current (c : CaseData) : Prop :=
  progress_date c = Dict.get (progress c) (progress_stages c).

(** *** [to_dict] and [from_dict]

    The values of the dictionaries the two methods exchange: [None], a
    text, or a dictionary of texts. *)
Inductive value :=
| VNone
| VStr (s : string)
| VDict (d : Dict.dict).

Definition pydict := list (string * value).

Fixpoint lookup (k : string) (data : pydict) : option value :=
  match data with
  | [] => None
  | (k', v) :: r => if k' =? k then Some v else lookup k r
  end.

Definition of_option (o : option string) : value :=
  match o with
  | Some s => VStr s
  | None => VNone
  end.

(** [CaseData.to_dict] *)
Definition to_dict (self : CaseData) : pydict :=
  [ ("case_id", VStr (case_id self));
    ("case_type", VStr (case_type self));
    ("client", VStr (client self));
    ("lawyer", of_option (lawyer self));
    ("legal_affairs", of_option (legal_affairs self));
    ("progress", VStr (progress self));
    ("case_reason", of_option (case_reason self));
    ("case_number", of_option (case_number self));
    ("opposing_party", of_option (opposing_party self));
    ("court", of_option (court self));
    ("division", of_option (division self));
    ("progress_date", of_option (progress_date self));
    ("progress_stages", VDict (progress_stages self));
    ("progress_notes", VDict (progress_notes self));
    ("progress_times", VDict (progress_times self));
    ("created_date", VStr (isoformat (created_date self)));
    ("updated_date", VStr (isoformat (updated_date self))) ].

(** How a call of [from_dict] fails: with the [KeyError] of a missing key,
    with the [ValueError] of [datetime.fromisoformat], or, for data that puts
    a value of another type where the record has a text or a dictionary,
    outside this model. *)
Inductive failure :=
| KeyError (key : string)
| ValueError (text : string)
| Untyped (key : string).

Definition and_then {A B : Type} (r : A + failure) (k : A -> B + failure) : B + failure :=
  match r with
  | inl a => k a
  | inr e => inr e
  end.

(** [data[k]] for a text field. *)
Definition required_text (k : string) (data : pydict) : string + failure :=
  match lookup k data with
  | Some (VStr s) => inl s
  | Some _ => inr (Untyped k)
  | None => inr (KeyError k)
  end.

(** [data.get(k)] for an optional text field. *)
Definition optional_text (k : string) (data : pydict) : option string + failure :=
  match lookup k data with
  | Some (VStr s) => inl (Some s)
  | Some VNone | None => inl None
  | Some (VDict _) => inr (Untyped k)
  end.

(** [data.get(k, {})] for notes and times; [__post_init__] turns [None] into
    an empty dictionary. *)
Definition optional_dict (k : string) (data : pydict) : Dict.dict + failure :=
  match lookup k data with
  | Some (VDict d) => inl d
  | Some VNone | None => inl Dict.empty
  | Some (VStr _) => inr (Untyped k)
  end.

(** The stages of [from_dict]: those of [progress_stages] when there are
    any; else those of the older [progress_history]; else, for a record with
    [experienced_stages] and a progress, the one stage made of [progress] and
    [progress_date] when both are given. A [progress_stages] that is [None]
    and is not replaced stays [None], which is no dictionary. *)
Definition stages_of (data : pydict) : Dict.dict + failure :=
  let legacy (absent : Dict.dict + failure) : Dict.dict + failure :=
    match lookup "progress_history" data with
    | Some (VDict h) => inl h
    | Some _ => inr (Untyped "progress_history")
    | None =>
        match lookup "experienced_stages" data, lookup "progress" data with
        | Some _, Some (VStr p) =>
            if negb (p =? "") then
              match lookup "progress_date" data with
              | Some (VStr d) =>
                  if negb (d =? "") then inl (Dict.setitem p d Dict.empty)
                  else inl Dict.empty
              | Some VNone | None => inl Dict.empty
              | Some (VDict _) => inr (Untyped "progress_date")
              end
            else absent
        | Some _, Some (VDict _) => inr (Untyped "progress")
        | _, _ => absent
        end
    end in
  match lookup "progress_stages" data with
  | Some (VDict (kv :: r)) => inl (kv :: r)
  | Some (VDict []) => legacy (inl Dict.empty)
  | None => legacy (inl Dict.empty)
  | Some VNone => legacy (inr (Untyped "progress_stages"))
  | Some (VStr _) => inr (Untyped "progress_stages")
  end.

Section FromDict.

(** [datetime.fromisoformat], [None] standing for its [ValueError]. *)
Variable fromisoformat : string -> option datetime.

Definition parsed_date (k : string) (data : pydict) : datetime + failure :=
  match required_text k data with
  | inl s =>
      match fromisoformat s with
      | Some d => inl d
      | None => inr (ValueError s)
      end
  | inr e => inr e
  end.

(** [data.get('progress', '待處理')] *)
Definition progress_of (data : pydict) : string + failure :=
  match lookup "progress" data with
  | Some (VStr s) => inl s
  | Some _ => inr (Untyped "progress")
  | None => inl "待處理"
  end.

(** [CaseData.from_dict]: the three dictionaries first, then the arguments
    of the constructor in the order they are written. *)
Definition from_dict (data : pydict) : CaseData + failure :=
  and_then (optional_dict "progress_notes" data) (fun notes =>
  and_then (optional_dict "progress_times" data) (fun times =>
  and_then (stages_of data) (fun stages =>
  and_then (required_text "case_id" data) (fun cid =>
  and_then (required_text "case_type" data) (fun ctype =>
  and_then (required_text "client" data) (fun cl =>
  and_then (optional_text "lawyer" data) (fun lw =>
  and_then (optional_text "legal_affairs" data) (fun la =>
  and_then (progress_of data) (fun p =>
  and_then (optional_text "case_reason" data) (fun cr =>
  and_then (optional_text "case_number" data) (fun cn =>
  and_then (optional_text "opposing_party" data) (fun op =>
  and_then (optional_text "court" data) (fun ct =>
  and_then (optional_text "division" data) (fun dv =>
  and_then (optional_text "progress_date" data) (fun pd =>
  and_then (parsed_date "created_date" data) (fun created =>
  and_then (parsed_date "updated_date" data) (fun updated =>
  inl
    {| case_id := cid; case_type := ctype; client := cl; lawyer := lw;
       legal_affairs := la; progress := p; case_reason := cr;
       case_number := cn; opposing_party := op; court := ct; division := dv;
       progress_date := pd; progress_stages := stages;
       progress_notes := notes; progress_times := times;
       created_date := created; updated_date := updated |}))))))))))))))))).

End FromDict.

End CaseModelMore.

(** ** [controllers/case_controller.py], the remaining methods *)
Module ControllerMore.
Import Py CaseModel Controller.

(** What [get_case_folder_info] returns: the dictionary a folder manager
    answered with, or one the controller builds itself. Every dictionary the
    controller builds and returns has [has_files = False], [file_count = 0],
    [size_mb = 0.0] and [validation = None]; it differs in [exists], [path] and
    the [error] text it may carry. *)
Inductive folder_info (D : Type) :=
| Delegated (d : D)
| Built_in (exists_ : bool) (path : option string) (error : option string).
Arguments Delegated {D} d.
Arguments Built_in {D} exists_ path error.

Section MoreMethods.
Variable World : Type.
Variable self : CaseController World.

(** [get_cases_by_type] and [get_cases_by_progress] *)
Definition get_cases_by_type (ctype : string) : M World (list CaseData) :=
  try_except
    (all_cases <- get_cases self ;;
     ret (filter (fun case => case_type case =? ctype) all_cases))
    (fun _ => ret []).

Definition get_cases_by_progress (p : string) : M World (list CaseData) :=
  try_except
    (all_cases <- get_cases self ;;
     ret (filter (fun case => progress case =? p) all_cases))
    (fun _ => ret []).

(** [create_case_folder_structure] *)
Definition create_case_folder_structure (case_data : CaseData) : M World bool :=
  try_except
    (invoke_attr fm_create_case_folder_structure_call "create_case_folder_structure"
       (option_map (fun f => f case_data)
          (fm_create_case_folder_structure (folder_manager self))))
    (fun _ => ret false).

(** [_delete_case_folder_basic]: the path comes from the controller's own
    [get_case_folder_path], by the id of the record. *)
Definition _delete_case_folder_basic (case : CaseData) : M World bool :=
  try_except
    (folder_path <- get_case_folder_path self (case_id case) ;;
     match folder_path with
     | Some p =>
         if negb (p =? "") then
           found <- exists_on_disk self p ;;
           if found : bool then
             invoke (shutil_rmtree_call p) (shutil_rmtree (disk self) p) ;; ret true
           else ret true
         else ret true
     | None => ret true
     end)
    (fun _ => ret false).

(** A call for which the trace has no name. *)
Definition unlogged {A : Type} (m : method World A) : M World A := fun w =>
  let '(o, w1) := m w in (o, w1, []).

Section FolderInfo.

(** The dictionaries of a folder manager, its two ways of giving one, and
    the text of Python's [UnboundLocalError]. *)
Variable D : Type.
Variable ops_get_case_folder_info : FolderOperations World -> CaseData -> method World D.
Variable fm_get_case_folder_info : option (CaseData -> method World D).
Variable unbound_local_message : string.

(** [get_case_folder_info]. The method holds [import os] further down in
    its own body, which makes [os] a local name of the whole method: the
    [os.path.exists(folder_path)] of its last branch, which comes before that
    import, raises [UnboundLocalError] whenever it is evaluated, that is
    whenever [folder_path] is a non-empty text. The counting of files and
    sizes behind it is never reached. *)
Definition get_case_folder_info (cid : string) : M World (folder_info D) :=
  try_except
    (case <- get_case_by_id self cid ;;
     match case with
     | None => ret (Built_in false None None)
     | Some case =>
         match fm_operations (folder_manager self) with
         | Some ops =>
             d <- unlogged (ops_get_case_folder_info ops case) ;; ret (Delegated d)
         | None =>
             match fm_get_case_folder_info with
             | Some f => d <- unlogged (f case) ;; ret (Delegated d)
             | None =>
                 folder_path <- get_case_folder_path self cid ;;
                 if truthy folder_path
                 then raise (OtherException unbound_local_message)
                 else ret (Built_in false folder_path None)
             end
         end
     end)
    (fun e => ret (Built_in false None (Some (str_of_exn e)))).

End FolderInfo.

End MoreMethods.

End ControllerMore.

(** ** [api/render_main.py], the two endpoints that use the controller *)
Module RenderMain.
Import Py CaseModel Controller.

Record LineMessage := { message_type : string; text : string }.

Record LineWebhookEvent := {
  event_type : string;
  message : option LineMessage;
  replyToken : string;
  source : Dict.dict
}.

Record APIResponse (D : Type) := {
  success : bool;
  response_message : string;
  data : option D
}.
Arguments success {D} a.
Arguments response_message {D} a.
Arguments data {D} a.

(** An endpoint returns a response or raises [HTTPException]. *)
Inductive http (A : Type) :=
| Responded (a : A)
| HTTPException (status_code : nat) (detail : string).
Arguments Responded {A} a.
Arguments HTTPException {A} status_code detail.

(** What the body of an endpoint may raise: an [HTTPException] of its own,
    or any other exception. *)
Inductive raised :=
| Http (status_code : nat) (detail : string)
| Other (e : exn).

(** The reply of the webhook and the record of [get_case_detail]. *)
Record Reply := { reply_text : string; reply_token : string }.

Record CaseDetail := {
  detail_case_id : string;
  detail_client : string;
  detail_case_type : string;
  detail_progress : string;
  detail_lawyer : option string;
  detail_created_date : datetime;
  detail_updated_date : datetime
}.

Section Endpoints.
Variable World : Type.

(** [WebhookLogic(ctrl, user_conversations).process_message], import
    included: it is not part of this file. *)
Variable process_message : string -> string -> method World Dict.dict.

(** [str(e)] for an [HTTPException]. *)
Variable str_of_http : nat -> string -> string.

Definition str_of_raised (r : raised) : string :=
  match r with
  | Http status detail => str_of_http status detail
  | Other e => str_of_exn e
  end.

(** [process_user_message]: every exception becomes an apology. *)
Definition process_user_message (user_id message_text : string) : World -> string * World :=
  fun w =>
    match process_message user_id message_text w with
    | (Returned result, w1) =>
        (match Dict.get "text" result with
         | Some t => t
         | None => "處理完成"
         end, w1)
    | (Raised _, w1) => ("抱歉，系統處理時發生錯誤，請稍後再試。", w1)
    end.

(** [event.type == "message" and event.message and event.message.type == "text"] *)
Definition text_of (event : LineWebhookEvent) : option string :=
  if event_type event =? "message" then
    match message event with
    | Some m => if message_type m =? "text" then Some (text m) else None
    | None => None
    end
  else None.

(** The loop over the events: it returns from inside at the first text
    message. *)
Fixpoint answer_first_text (events : list LineWebhookEvent) (w : World)
  : APIResponse Reply * World :=
  match events with
  | [] => ({| success := true; response_message := "無需處理的事件"; data := None |}, w)
  | event :: rest =>
      match text_of event with
      | Some message_text =>
          let user_id :=
            match Dict.get "userId" (source event) with
            | Some u => u
            | None => "unknown"
            end in
          let '(response_text, w1) := process_user_message user_id message_text w in
          ({| success := true; response_message := "處理成功";
              data := Some {| reply_text := response_text;
                              reply_token := replyToken event |} |}, w1)
      | None => answer_first_text rest w
      end
  end.

(** [handle_line_webhook], on what [get_controller()] gave. Its one handler
    catches every [Exception], the [HTTPException] of its own body included,
    and raises status 500 with the text of what it caught. *)
Definition handle_line_webhook (C : Type) (ctrl : option C)
  (events : list LineWebhookEvent) (w : World) : http (APIResponse Reply) * World :=
  let body : (APIResponse Reply + raised) * World :=
    match ctrl with
    | None => (inr (Http 503 "系統服務不可用"), w)
    | Some _ => let '(r, w1) := answer_first_text events w in (inl r, w1)
    end in
  match body with
  | (inl r, w1) => (Responded r, w1)
  | (inr e, w1) => (HTTPException 500 (str_of_raised e), w1)
  end.

(** [get_case_detail]. It has two handlers: an [HTTPException] is raised
    again as it is, any other exception becomes status 500. *)
Definition get_case_detail (ctrl : option (CaseController World)) (cid : string)
  (w : World) : http (APIResponse CaseDetail) * World :=
  let body : (APIResponse CaseDetail + raised) * World :=
    match ctrl with
    | None => (inr (Http 503 "系統服務不可用"), w)
    | Some c =>
        match get_cases c w with
        | (Returned cases, w1, _) =>
            match find (fun case => case_id case =? cid) cases with
            | Some case =>
                (inl {| success := true; response_message := "查詢成功";
                        data := Some {| detail_case_id := case_id case;
                                        detail_client := client case;
                                        detail_case_type := case_type case;
                                        detail_progress := progress case;
                                        detail_lawyer := lawyer case;
                                        detail_created_date := created_date case;
                                        detail_updated_date := updated_date case |} |},
                 w1)
            | None => (inr (Http 404 "案件不存在"), w1)
            end
        | (Raised e, w1, _) => (inr (Other e), w1)
        end
    end in
  match body with
  | (inl r, w1) => (Responded r, w1)
  | (inr (Http status detail), w1) => (HTTPException status detail, w1)
  | (inr (Other e), w1) => (HTTPException 500 (str_of_exn e), w1)
  end.

End Endpoints.

End RenderMain.

(** ** Sample records and clock readings, for the worked cases *)
Module Samples.
Import Py CaseModel.

Definition clock0 : datetime := mk_datetime "2024-06-01" "2024-06-01T09:00:00".

(** A record straight from the constructor. *)
Definition fresh : CaseData := new_case clock0 clock0 "A1" "civil" "Mr. X".

(** The record of section 8: two stages, the later one current. *)
Definition filed_hearing : CaseData :=
  with_progress_state fresh "hearing" (Some "2024-03-01")
    [("filed", "2024-01-01"); ("hearing", "2024-03-01")] [] [] clock0.

(** A record whose only stage is the current one. *)
Definition only_filed : CaseData :=
  with_progress_state fresh "filed" (Some "2024-01-01")
    [("filed", "2024-01-01")] [] [] clock0.

(** A record with a note and a time on its current stage. *)
Definition annotated : CaseData :=
  with_progress_state fresh "hearing" (Some "2024-03-01")
    [("filed", "2024-01-01"); ("hearing", "2024-03-01")]
    [("hearing", "bring the originals")] [("hearing", "14:30")] clock0.

End Samples.

(** ** A small world, for the worked cases of the controller

    The world is the list of directories on the disk. The collaborators
    leave it alone and answer with fixed flags; the store holds the one
    record [Samples.fresh]. *)
Module Demo.
Import Py CaseModel Controller Samples.

Definition World := list string.

Definition demo_disk : Disk World :=
  {| os_path_exists := fun p w => existsb (String.eqb p) w;
     os_listdir := fun _ _ => Returned [];
     shutil_rmtree := fun p w => (Returned tt, filter (fun q => negb (q =? p)) w) |}.

Definition demo_table : Dict.dict := [("civil", "civil"); ("criminal", "criminal")].

Definition answer {A : Type} (a : A) : method World A := fun w => (Returned a, w).

Definition demo_data_manager (ok : bool) : CaseDataManager World :=
  {| dm_add_case := fun _ => answer ok;
     dm_delete_case := fun _ _ => answer ok;
     dm_update_case_id_with_files := fun _ _ _ => answer (ok, "renamed");
     dm_get_cases := answer [fresh];
     dm_get_case_by_id := fun cid => answer (if cid =? "A1" then Some fresh else None);
     dm_save_cases := answer ok |}.

Definition demo_progress_manager (ok : bool) : CaseProgressManager World :=
  {| pm_add_progress_stage := fun _ _ _ _ _ => answer ok;
     pm_update_progress_stage := fun _ _ _ _ _ => answer ok;
     pm_remove_progress_stage := fun _ _ => answer ok;
     update_progress_files_for_case_id_change := fun _ _ => answer (ok, "") |}.

(** An old-style folder manager: it can create and nothing else, so
    [__init__] patches it. *)
Definition old_folder_manager : FolderManager World :=
  {| fm_get_case_folder_path := None;
     fm_create_case_folder_structure := Some (fun _ => answer true);
     fm_delete_case_folder := None;
     fm_operations := None;
     fm_creator := None |}.

Definition patched_folder_manager : FolderManager World :=
  _patch_folder_manager demo_table "data" true old_folder_manager.

Definition basic_folder_manager : FolderManager World :=
  _create_basic_folder_manager demo_disk demo_table "data".

Definition controller (fm : FolderManager World) (valid store_ok mirror_ok : bool)
  : CaseController World :=
  {| data_folder := "data";
     CASE_TYPE_FOLDERS := demo_table;
     disk := demo_disk;
     folder_manager := fm;
     data_manager := demo_data_manager store_ok;
     validator := {| validate_case_id_update := fun _ _ _ => answer (valid, "checked") |};
     import_export :=
       {| update_excel_content_for_case_id_change := fun _ _ => answer (mirror_ok, "") |};
     progress_manager := demo_progress_manager mirror_ok;
     rebind_cases := fun w => w |}.

(** A folder step that raises. *)
Definition raising_step : string -> M World bool :=
  fun _ => raise (OtherException "disk error").

End Demo.

(** ** More sample data *)
Module SamplesMore.
Import Py CaseModel CaseModelMore Samples.

(** A reader of ISO texts for the sample clock readings: the date is the
    first ten characters. *)
Definition read_iso (s : string) : option datetime :=
  if Nat.leb 10 (String.length s) then Some (mk_datetime (substring 0 10 s) s) else None.

(** A record as an older version of the program stored it: no
    [progress_stages], the stages under [progress_history]. *)
Definition legacy_data : pydict :=
  [ ("case_id", VStr "A1"); ("case_type", VStr "civil"); ("client", VStr "Mr. X");
    ("progress", VStr "filed");
    ("progress_history", VDict [("filed", "2024-01-01")]);
    ("created_date", VStr "2024-06-01T09:00:00");
    ("updated_date", VStr "2024-06-01T09:00:00") ].

(** The default record with two stages added: its progress is recorded
    nowhere. *)
Definition pending_with_stages : CaseData :=
  with_progress_state fresh "待處理" None
    [("filed", "2024-01-01"); ("hearing", "2024-03-01")] [] [] clock0.

(** A record with an undated stage. *)
Definition with_undated : CaseData :=
  with_progress_state fresh "filed" (Some "2024-01-01")
    [("appeal", ""); ("hearing", "2024-03-01"); ("filed", "2024-01-01")] [] [] clock0.

End SamplesMore.

(** ** More of the small world *)
Module DemoMore.
Import Py CaseModel Controller Samples Demo.

(** A disk on which [shutil.rmtree] reports success and removes nothing. *)
Definition sticky_disk : Disk World :=
  {| os_path_exists := os_path_exists demo_disk;
     os_listdir := os_listdir demo_disk;
     shutil_rmtree := fun _ => answer tt |}.

Definition sticky_controller : CaseController World :=
  {| data_folder := "data";
     CASE_TYPE_FOLDERS := demo_table;
     disk := sticky_disk;
     folder_manager := patched_folder_manager;
     data_manager := demo_data_manager true;
     validator := {| validate_case_id_update := fun _ _ _ => answer (true, "checked") |};
     import_export :=
       {| update_excel_content_for_case_id_change := fun _ _ => answer (true, "") |};
     progress_manager := demo_progress_manager true;
     rebind_cases := fun w => w |}.


(** A record whose client is an absolute path. *)
Definition absolute_client : CaseData := new_case clock0 clock0 "A2" "civil" "/etc".

End DemoMore.

(** * Properties *)

Unset Implicit Arguments.

(** ** The order on texts and the stable sort *)
Module PyFacts.
Import Py.

Lemma ascii_compare_refl (a : ascii) : Ascii.compare a a = Eq.
Proof. unfold Ascii.compare. apply N.compare_refl. Qed.

Lemma compare_refl (s : string) : (s ?= s) = Eq.
Proof.
  induction s as [| a s IH]; simpl; [reflexivity |].
  now rewrite ascii_compare_refl.
Qed.

Lemma leb_refl (s : string) : (s <=? s) = true.
Proof. unfold String.leb. now rewrite compare_refl. Qed.

Lemma compare_lt_trans (s1 s2 s3 : string) :
  (s1 ?= s2) = Lt -> (s2 ?= s3) = Lt -> (s1 ?= s3) = Lt.
Proof.
  revert s2 s3.
  induction s1 as [| a s1 IH]; intros [| b s2] [| c s3]; simpl;
    try discriminate; try reflexivity.
  unfold Ascii.compare.
  destruct (N.compare_spec (N_of_ascii a) (N_of_ascii b)) as [Hab | Hab | Hab];
    destruct (N.compare_spec (N_of_ascii b) (N_of_ascii c)) as [Hbc | Hbc | Hbc];
    try discriminate; intros H12 H23.
  - rewrite Hab, Hbc, N.compare_refl. eauto.
  - rewrite Hab. now apply N.compare_lt_iff in Hbc as ->.
  - rewrite <- Hbc. now apply N.compare_lt_iff in Hab as ->.
  - assert (Hac : (N_of_ascii a < N_of_ascii c)%N) by lia.
    now apply N.compare_lt_iff in Hac as ->.
Qed.

Lemma leb_trans (s1 s2 s3 : string) :
  (s1 <=? s2) = true -> (s2 <=? s3) = true -> (s1 <=? s3) = true.
Proof.
  unfold String.leb.
  destruct (s1 ?= s2) eqn:H12; try discriminate;
    destruct (s2 ?= s3) eqn:H23; try discriminate; intros _ _.
  - apply String.compare_eq_iff in H12, H23. subst. now rewrite compare_refl.
  - apply String.compare_eq_iff in H12. subst. now rewrite H23.
  - apply String.compare_eq_iff in H23. subst. now rewrite H12.
  - now rewrite (compare_lt_trans _ _ _ H12 H23).
Qed.

Lemma not_leb_ltb (s1 s2 : string) : (s1 <=? s2) = false -> (s2 <? s1) = true.
Proof.
  unfold String.leb, String.ltb. rewrite (String.compare_antisym s2 s1).
  now destruct (s1 ?= s2).
Qed.

Lemma ltb_leb (s1 s2 : string) : (s1 <? s2) = true -> (s1 <=? s2) = true.
Proof. unfold String.leb, String.ltb. now destruct (s1 ?= s2). Qed.

Section SortedFacts.
Variable A : Type.
Variable key : A -> string.

Lemma insert_desc_not_nil (x : A) (l : list A) : insert_desc key x l <> [].
Proof. destruct l as [| y r]; simpl; [| destruct (key y <=? key x)]; discriminate. Qed.

Lemma sorted_reverse_nil_inv (l : list A) : sorted_reverse key l = [] -> l = [].
Proof.
  destruct l as [| x l]; [reflexivity |]. simpl. intros H.
  now apply insert_desc_not_nil in H.
Qed.

(** The head of the sorted list is the first element of the input that
    carries the greatest key: everything is below it, and what stood before
    it is strictly below. *)
Lemma sorted_reverse_head (l : list A) (h : A) (t : list A) :
  sorted_reverse key l = h :: t ->
  exists before after,
    l = before ++ h :: after /\
    (forall y, In y l -> (key y <=? key h) = true) /\
    (forall y, In y before -> (key y <? key h) = true).
Proof.
  revert h t. induction l as [| x l IH]; intros h t; simpl; [discriminate |].
  destruct (sorted_reverse key l) as [| h' t'] eqn:Hs.
  - apply sorted_reverse_nil_inv in Hs. subst l. simpl.
    intros [= <- <-]. exists [], []. repeat split.
    + intros y [<- | []]. apply leb_refl.
    + intros y [].
  - destruct (IH h' t' eq_refl) as (before & after & Hl & Hmax & Hlt).
    simpl. destruct (key h' <=? key x) eqn:Hle.
    + intros [= <- <-]. exists [], l. repeat split.
      * intros y [<- | Hy]; [apply leb_refl |].
        eapply leb_trans; [apply Hmax, Hy | exact Hle].
      * intros y [].
    + intros [= <- <-]. exists (x :: before), after. repeat split.
      * now rewrite Hl.
      * intros y [<- | Hy]; [| now apply Hmax].
        now apply ltb_leb, not_leb_ltb.
      * intros y [<- | Hy]; [| now apply Hlt].
        now apply not_leb_ltb.
Qed.

End SortedFacts.

End PyFacts.

(** ** Dictionaries *)
Module DictFacts.

Lemma contains_In (k : string) (d : Dict.dict) :
  Dict.contains k d = true <-> exists v, In (k, v) d.
Proof.
  induction d as [| [k' v'] r IH]; simpl.
  - split; [discriminate | intros [_ []]].
  - rewrite orb_true_iff, IH, String.eqb_eq. split.
    + intros [-> | [v Hv]]; eauto.
    + intros [v [[= -> ->] | Hv]]; eauto.
Qed.

Lemma get_none_contains (k : string) (d : Dict.dict) :
  Dict.get k d = None <-> Dict.contains k d = false.
Proof.
  induction d as [| [k' v'] r IH]; simpl; [tauto |].
  destruct (k' =? k); simpl; [split; discriminate | exact IH].
Qed.

Lemma contains_delitem_same (k : string) (d : Dict.dict) :
  Dict.contains k (Dict.delitem k d) = false.
Proof.
  induction d as [| [k' v'] r IH]; simpl; [reflexivity |].
  destruct (k' =? k) eqn:E; simpl; [exact IH | now rewrite E].
Qed.

Lemma contains_delitem_other (k k' : string) (d : Dict.dict) :
  k' <> k -> Dict.contains k' (Dict.delitem k d) = Dict.contains k' d.
Proof.
  intros Hne. induction d as [| [k0 v0] r IH]; simpl; [reflexivity |].
  destruct (k0 =? k) eqn:E; simpl.
  - apply String.eqb_eq in E. subst k0.
    apply not_eq_sym in Hne. apply String.eqb_neq in Hne. now rewrite Hne.
  - now rewrite IH.
Qed.

Lemma get_delitem_other (k k' : string) (d : Dict.dict) :
  k' <> k -> Dict.get k' (Dict.delitem k d) = Dict.get k' d.
Proof.
  intros Hne. induction d as [| [k0 v0] r IH]; simpl; [reflexivity |].
  destruct (k0 =? k) eqn:E; simpl.
  - apply String.eqb_eq in E. subst k0.
    apply not_eq_sym in Hne. apply String.eqb_neq in Hne. now rewrite Hne.
  - now rewrite IH.
Qed.

Lemma contains_setitem (k k' v : string) (d : Dict.dict) :
  Dict.contains k' (Dict.setitem k v d) = (k =? k') || Dict.contains k' d.
Proof.
  induction d as [| [k0 v0] r IH]; simpl.
  - now rewrite orb_false_r.
  - destruct (k0 =? k) eqn:E; simpl.
    + apply String.eqb_eq in E. subst k0.
      now destruct (k =? k'), (Dict.contains k' r).
    + rewrite IH. now destruct (k0 =? k'), (k =? k'), (Dict.contains k' r).
Qed.

Lemma truthy_setitem (k v : string) (d : Dict.dict) :
  Dict.truthy (Dict.setitem k v d) = true.
Proof. destruct d as [| [k0 v0] r]; simpl; [| destruct (k0 =? k)]; reflexivity. Qed.

(** Keys stay unique, as they are in a Python dictionary. *)
Lemma keys_setitem (k v : string) (d : Dict.dict) :
  Dict.keys (Dict.setitem k v d)
  = if Dict.contains k d then Dict.keys d else Dict.keys d ++ [k].
Proof.
  induction d as [| [k0 v0] r IH]; simpl; [reflexivity |].
  destruct (k0 =? k) eqn:E; simpl; [reflexivity |].
  rewrite IH. now destruct (Dict.contains k r).
Qed.

Lemma contains_keys (k : string) (d : Dict.dict) :
  Dict.contains k d = true <-> In k (Dict.keys d).
Proof.
  rewrite contains_In. unfold Dict.keys. rewrite in_map_iff. split.
  - intros [v Hv]. now exists (k, v).
  - intros [[k' v] [<- Hv]]. now exists v.
Qed.

Lemma NoDup_keys_setitem (k v : string) (d : Dict.dict) :
  NoDup (Dict.keys d) -> NoDup (Dict.keys (Dict.setitem k v d)).
Proof.
  intros Hd. rewrite keys_setitem.
  destruct (Dict.contains k d) eqn:E; [exact Hd |].
  apply NoDup_rev in Hd. rewrite <- (rev_involutive (Dict.keys d ++ [k])).
  apply NoDup_rev. rewrite rev_app_distr. simpl. constructor; [| exact Hd].
  rewrite <- in_rev, <- contains_keys. now rewrite E.
Qed.

Lemma NoDup_keys_delitem (k : string) (d : Dict.dict) :
  NoDup (Dict.keys d) -> NoDup (Dict.keys (Dict.delitem k d)).
Proof.
  induction d as [| [k0 v0] r IH]; simpl; [auto |].
  intros Hd. inversion Hd as [| ? ? Hnot Hr]; subst.
  destruct (k0 =? k); simpl; [now apply IH |].
  constructor; [| now apply IH].
  intros Hin. apply Hnot. apply contains_keys.
  apply contains_keys in Hin.
  destruct (String.eqb_spec k0 k) as [-> | Hne].
  - now rewrite contains_delitem_same in Hin.
  - now rewrite contains_delitem_other in Hin.
Qed.

Lemma truthy_not_nil (d : Dict.dict) : Dict.truthy d = true <-> d <> [].
Proof. destruct d; simpl; split; try discriminate; try congruence; auto. Qed.

End DictFacts.

(** ** The stage operations of [CaseData] *)
Module CaseModelFacts.
Import Py CaseModel Samples.

Lemma drop_delitem (k : string) (d : Dict.dict) : drop k d = Dict.delitem k d.
Proof.
  unfold drop. destruct (Dict.contains k d) eqn:E; [reflexivity |].
  induction d as [| [k' v'] r IH]; [reflexivity |].
  simpl in *. apply orb_false_iff in E as [E1 E2]. rewrite E1. simpl.
  now rewrite <- IH.
Qed.

(** The current progress [remove_progress_stage] leaves, when the removed
    stage was the current one: the head of the sorted remaining stages. *)
Lemma remove_current_progress (now : datetime) (c : CaseData) (s : string) :
  s = progress c ->
  progress (snd (remove_progress_stage now c s)) =
    match sorted_reverse (@snd string string) (Dict.delitem s (progress_stages c)) with
    | (k, _) :: _ => k
    | [] => ""
    end.
Proof.
  intros Hs. unfold remove_progress_stage. rewrite !drop_delitem.
  rewrite <- Hs, String.eqb_refl. unfold Dict.items.
  destruct (Dict.delitem s (progress_stages c)) as [| kv rest] eqn:Hrest.
  - simpl. now destruct (Dict.contains s (progress_stages c)).
  - cbn [Dict.truthy].
    destruct (sorted_reverse (@snd string string) (kv :: rest)) as [| [k d] t] eqn:Hsort.
    + now apply PyFacts.sorted_reverse_nil_inv in Hsort.
    + now destruct (Dict.contains s (progress_stages c)).
Qed.

Lemma remove_progress_stages (now : datetime) (c : CaseData) (s : string) :
  progress_stages (snd (remove_progress_stage now c s)) =
    Dict.delitem s (progress_stages c).
Proof.
  unfold remove_progress_stage. rewrite !drop_delitem.
  repeat match goal with
         | |- context [if ?b then _ else _] => destruct b
         | |- context [match ?l with [] => _ | _ :: _ => _ end] => destruct l as [| [? ?] ?]
         end; reflexivity.
Qed.

Lemma remove_progress_date (now : datetime) (c : CaseData) (s : string) :
  progress_date (snd (remove_progress_stage now c s)) = progress_date c.
Proof.
  unfold remove_progress_stage.
  repeat match goal with
         | |- context [if ?b then _ else _] => destruct b
         | |- context [match ?l with [] => _ | _ :: _ => _ end] => destruct l as [| [? ?] ?]
         end; reflexivity.
Qed.

Lemma remove_flag (now : datetime) (c : CaseData) (s : string) :
  Dict.contains s (progress_stages c) = true ->
  fst (remove_progress_stage now c s) = true.
Proof.
  intros Hin. unfold remove_progress_stage. rewrite Hin, !drop_delitem.
  destruct (s =? progress c); [| reflexivity].
  destruct (Dict.delitem s (progress_stages c)) as [| kv rest] eqn:Hrest; [reflexivity |].
  cbn [Dict.truthy]. unfold Dict.items.
  destruct (sorted_reverse (@snd string string) (kv :: rest)) as [| [k d] t] eqn:Hsort.
  - now apply PyFacts.sorted_reverse_nil_inv in Hsort.
  - reflexivity.
Qed.

(** C1. Removing a stage that is recorded and is the current progress
    succeeds, and the current progress becomes the remaining stage with the
    greatest date text; among stages that share that date, the one recorded
    first (every stage recorded before it has a strictly smaller date). With
    no stage left, the current progress becomes the empty text. *)
Theorem remove_current_stage_reassigns_progress :
  forall (now : datetime) (c : CaseData) (s : string),
    Dict.contains s (progress_stages c) = true ->
    s = progress c ->
    let rest := Dict.delitem s (progress_stages c) in
    let r := remove_progress_stage now c s in
    fst r = true /\
    progress_stages (snd r) = rest /\
    (rest = [] -> progress (snd r) = "") /\
    (rest <> [] ->
     exists d before after,
       rest = before ++ (progress (snd r), d) :: after /\
       (forall k' d', In (k', d') rest -> (d' <=? d) = true) /\
       (forall k' d', In (k', d') before -> (d' <? d) = true)).
Proof.
  intros now c s Hin Hs rest r. subst r.
  split; [now apply remove_flag |].
  split; [apply remove_progress_stages |].
  rewrite (remove_current_progress now c s Hs). fold rest.
  split.
  - intros ->. reflexivity.
  - intros Hne.
    destruct (sorted_reverse (@snd string string) rest) as [| [k d] t] eqn:Hsort.
    + now apply PyFacts.sorted_reverse_nil_inv in Hsort.
    + destruct (PyFacts.sorted_reverse_head _ _ _ _ _ Hsort) as (before & after & Hl & Hmax & Hlt).
      exists d, before, after. repeat split.
      * exact Hl.
      * intros k' d' Hk. exact (Hmax (k', d') Hk).
      * intros k' d' Hk. exact (Hlt (k', d') Hk).
Qed.

Lemma remove_current_stage_reassigns_progress_witness :
  Dict.contains "hearing" (progress_stages filed_hearing) = true /\
  "hearing" = progress filed_hearing /\
  fst (remove_progress_stage clock0 filed_hearing "hearing") = true /\
  progress_stages (snd (remove_progress_stage clock0 filed_hearing "hearing"))
    = [("filed", "2024-01-01")].
Proof.
  split; [reflexivity |]. split; [reflexivity |].
  pose proof (remove_current_stage_reassigns_progress clock0 filed_hearing "hearing"
                eq_refl eq_refl) as H.
  split; [exact (proj1 H) | exact (proj1 (proj2 H))].
Defined.

(** The two worked cases of the specification. *)
Example remove_hearing_yields_filed :
  progress (snd (remove_progress_stage clock0 filed_hearing "hearing")) = "filed".
Proof. reflexivity. Qed.

Example remove_only_stage_yields_empty :
  progress (snd (remove_progress_stage clock0 only_filed "filed")) = "".
Proof. reflexivity. Qed.

(** Ties go to the stage recorded first. *)
Example remove_tie_takes_first_recorded :
  progress (snd (remove_progress_stage clock0
     (with_progress_state fresh "z" None
        [("b", "2024-02-02"); ("z", "2024-05-05"); ("a", "2024-02-02")] [] [] clock0)
     "z")) = "b".
Proof. reflexivity. Qed.

Lemma remove_progress_in_rest (now : datetime) (c : CaseData) (s : string) :
  s = progress c ->
  Dict.delitem s (progress_stages c) <> [] ->
  Dict.contains (progress (snd (remove_progress_stage now c s)))
    (Dict.delitem s (progress_stages c)) = true.
Proof.
  intros Hs Hne. rewrite (remove_current_progress now c s Hs).
  destruct (sorted_reverse (@snd string string) (Dict.delitem s (progress_stages c)))
    as [| [k d] t] eqn:Hsort.
  - now apply PyFacts.sorted_reverse_nil_inv in Hsort.
  - destruct (PyFacts.sorted_reverse_head _ _ _ _ _ Hsort) as (before & after & Hl & _).
    apply DictFacts.contains_In. exists d. rewrite Hl.
    apply in_or_app. right. now left.
Qed.

Lemma remove_other_progress (now : datetime) (c : CaseData) (s : string) :
  s <> progress c ->
  progress (snd (remove_progress_stage now c s)) = progress c.
Proof.
  intros Hs. unfold remove_progress_stage.
  apply String.eqb_neq in Hs. rewrite Hs.
  now destruct (Dict.contains s (progress_stages c)).
Qed.

Lemma update_progress_invariant today now c s d n t :
  stage_invariant (update_progress today now c s d n t).
Proof.
  intros _. simpl. rewrite DictFacts.contains_setitem.
  now rewrite String.eqb_refl.
Qed.

Lemma remove_progress_stage_invariant now c s :
  stage_invariant c -> stage_invariant (snd (remove_progress_stage now c s)).
Proof.
  intros Hinv. unfold stage_invariant. rewrite remove_progress_stages.
  intros Hrest. apply DictFacts.truthy_not_nil in Hrest.
  destruct (String.eqb_spec s (progress c)) as [Hs | Hs].
  - now apply remove_progress_in_rest.
  - rewrite (remove_other_progress now c s Hs).
    rewrite DictFacts.contains_delitem_other by congruence.
    apply Hinv. destruct (progress_stages c); [now elim Hrest | reflexivity].
Qed.

Lemma add_progress_stage_invariant_iff today now c s d n t :
  stage_invariant c ->
  stage_invariant (add_progress_stage today now c s d n t) <->
  progress_stages c <> [] \/ s = progress c.
Proof.
  intros Hinv. unfold stage_invariant at 1. simpl.
  rewrite DictFacts.truthy_setitem, DictFacts.contains_setitem, orb_true_iff, String.eqb_eq.
  split.
  - intros H. destruct (H eq_refl) as [-> | Hin]; [now right |].
    left. intros E. rewrite E in Hin. discriminate.
  - intros [Hne | ->] _; [right | now left].
    now apply Hinv, DictFacts.truthy_not_nil.
Qed.

(** C2, as the code has it. On a record that satisfies the invariant (a
    record with stages has one of them as its current progress),
    [update_progress] and [remove_progress_stage] give a record that
    satisfies it; [add_progress_stage], which never writes [progress], does so
    exactly when the record already had a stage or the added stage is the
    current progress. *)
Theorem stage_invariant_under_stage_operations :
  forall (today now : datetime) (c : CaseData) (s : string) (d n t : option string),
    stage_invariant c ->
    stage_invariant (update_progress today now c s d n t) /\
    stage_invariant (snd (remove_progress_stage now c s)) /\
    (stage_invariant (add_progress_stage today now c s d n t) <->
     progress_stages c <> [] \/ s = progress c).
Proof.
  intros today now c s d n t Hinv. split; [| split].
  - apply update_progress_invariant.
  - now apply remove_progress_stage_invariant.
  - now apply add_progress_stage_invariant_iff.
Qed.

Lemma stage_invariant_under_stage_operations_witness :
  stage_invariant filed_hearing /\
  stage_invariant (update_progress clock0 clock0 filed_hearing "ruling" None None None) /\
  stage_invariant (snd (remove_progress_stage clock0 filed_hearing "hearing")).
Proof.
  assert (Hinv : stage_invariant filed_hearing) by (intros _; reflexivity).
  pose proof (stage_invariant_under_stage_operations clock0 clock0 filed_hearing
                "hearing" None None None Hinv) as Hh.
  pose proof (stage_invariant_under_stage_operations clock0 clock0 filed_hearing
                "ruling" None None None Hinv) as Hr.
  split; [exact Hinv |]. split; [exact (proj1 Hr) | exact (proj1 (proj2 Hh))].
Defined.

(** C2, as stated, fails on [add_progress_stage]: the record the constructor
    builds has no stage and the current progress "待處理", so it satisfies the
    invariant; after [add_progress_stage("filed", "2024-01-15")] it has the one
    stage "filed" and the current progress is still "待處理". *)
Lemma add_progress_stage_breaks_stage_invariant :
  stage_invariant fresh /\
  ~ stage_invariant
      (add_progress_stage clock0 clock0 fresh "filed" (Some "2024-01-15") None None).
Proof.
  split.
  - intros H. discriminate H.
  - intros H. specialize (H eq_refl). discriminate H.
Qed.

(** C9. When the removed stage is the current progress and other stages
    remain, [remove_progress_stage] moves [progress] to one of the remaining
    stages, which is not the removed one, and leaves [progress_date] as it
    was. *)
Theorem remove_current_stage_keeps_progress_date :
  forall (now : datetime) (c : CaseData) (s : string),
    s = progress c ->
    Dict.delitem s (progress_stages c) <> [] ->
    let c' := snd (remove_progress_stage now c s) in
    progress_date c' = progress_date c /\
    progress c' <> s /\
    Dict.contains (progress c') (progress_stages c') = true.
Proof.
  intros now c s Hs Hne c'. subst c'.
  pose proof (remove_progress_in_rest now c s Hs Hne) as Hin.
  split; [apply remove_progress_date |]. split.
  - intros E. rewrite E, DictFacts.contains_delitem_same in Hin. discriminate.
  - now rewrite remove_progress_stages.
Qed.

(** On the record of section 8 the date kept is the removed stage's, not the
    date of the stage that became current. *)
Lemma remove_current_stage_keeps_progress_date_witness :
  "hearing" = progress filed_hearing /\
  Dict.delitem "hearing" (progress_stages filed_hearing) <> [] /\
  progress_date (snd (remove_progress_stage clock0 filed_hearing "hearing"))
    = progress_date filed_hearing /\
  progress_date filed_hearing = Some "2024-03-01" /\
  Dict.get (progress (snd (remove_progress_stage clock0 filed_hearing "hearing")))
    (progress_stages (snd (remove_progress_stage clock0 filed_hearing "hearing")))
    = Some "2024-01-01".
Proof.
  assert (Hne : Dict.delitem "hearing" (progress_stages filed_hearing) <> [])
    by discriminate.
  split; [reflexivity |]. split; [exact Hne |].
  split; [| split; reflexivity].
  exact (proj1 (remove_current_stage_keeps_progress_date clock0 filed_hearing "hearing"
                  eq_refl Hne)).
Defined.

Lemma get_set_or_drop_none (k : string) (d : Dict.dict) :
  Dict.get k (set_or_drop k None d) = None.
Proof.
  unfold set_or_drop. apply DictFacts.get_none_contains.
  destruct (Dict.contains k d) eqn:E; [apply DictFacts.contains_delitem_same | exact E].
Qed.

Lemma get_set_or_drop_none_other (k k' : string) (d : Dict.dict) :
  k' <> k -> Dict.get k' (set_or_drop k None d) = Dict.get k' d.
Proof.
  intros Hne. unfold set_or_drop.
  destruct (Dict.contains k d); [now apply DictFacts.get_delitem_other | reflexivity].
Qed.

(** C10. [update_progress(s, d)] without a note deletes the note recorded
    for [s], and without a time deletes the time recorded for [s]; the notes
    and times of the other stages stay. *)
Theorem update_progress_without_note_or_time_deletes_it :
  forall (today now : datetime) (c : CaseData) (s : string) (d : option string),
    (forall (time : option string) (n : string),
        Dict.get s (progress_notes c) = Some n ->
        let c' := update_progress today now c s d None time in
        Dict.get s (progress_notes c') = None /\
        forall k, k <> s -> Dict.get k (progress_notes c') = Dict.get k (progress_notes c)) /\
    (forall (note : option string) (t : string),
        Dict.get s (progress_times c) = Some t ->
        let c' := update_progress today now c s d note None in
        Dict.get s (progress_times c') = None /\
        forall k, k <> s -> Dict.get k (progress_times c') = Dict.get k (progress_times c)).
Proof.
  intros today now c s d. split.
  - intros time n _ c'. subst c'. simpl. split.
    + apply get_set_or_drop_none.
    + intros k Hk. now apply get_set_or_drop_none_other.
  - intros note t _ c'. subst c'. simpl. split.
    + apply get_set_or_drop_none.
    + intros k Hk. now apply get_set_or_drop_none_other.
Qed.

Lemma update_progress_without_note_or_time_deletes_it_witness :
  (Dict.get "hearing" (progress_notes annotated) = Some "bring the originals" /\
   Dict.get "hearing"
     (progress_notes (update_progress clock0 clock0 annotated "hearing"
                        (Some "2024-03-08") None (Some "10:00"))) = None) /\
  (Dict.get "hearing" (progress_times annotated) = Some "14:30" /\
   Dict.get "hearing"
     (progress_times (update_progress clock0 clock0 annotated "hearing"
                        (Some "2024-03-08") (Some "postponed") None)) = None).
Proof.
  pose proof (update_progress_without_note_or_time_deletes_it clock0 clock0 annotated
                "hearing" (Some "2024-03-08")) as [Hn Ht].
  split; (split; [reflexivity |]).
  - exact (proj1 (Hn (Some "10:00") "bring the originals" eq_refl)).
  - exact (proj1 (Ht (Some "postponed") "14:30" eq_refl)).
Defined.

End CaseModelFacts.

(** ** The sagas of [CaseController] *)
Module ControllerFacts.
Import Py CaseModel Controller.

(** Case analysis on the next thing a run looks at: the outcome of a
    call, a missing attribute, the class of an exception, a flag. *)
Ltac unfold_run :=
  unfold try_except, bind, invoke, invoke_attr, raise, ret, _sync_managers,
    exists_on_disk, listdir, option_map, result, final_world, trace in *.

Ltac is_plain x :=
  lazymatch x with
  | context [match _ with _ => _ end] => fail
  | _ => idtac
  end.

Ltac next_case :=
  match goal with
  | |- context [match ?x with pair _ _ => _ end] =>
      is_plain x; let E := fresh "E" in destruct x eqn:E
  | |- context [match ?x with Returned _ => _ | Raised _ => _ end] =>
      is_plain x; destruct x
  | |- context [match ?x with Some _ => _ | None => _ end] =>
      is_plain x; let E := fresh "E" in destruct x eqn:E
  | |- context [match ?x with AttributeError _ => _ | OtherException _ => _ end] =>
      is_plain x; destruct x
  | |- context [if negb ?b then _ else _] =>
      is_plain b; let E := fresh "E" in destruct b eqn:E
  | |- context [if ?b then _ else _] =>
      is_plain b; let E := fresh "E" in destruct b eqn:E
  end.

Ltac run_cases :=
  repeat (unfold_run; cbn -[String.concat String.append String.eqb] in *; try next_case).

Section Sagas.
Variable World : Type.
Variable self : CaseController World.

(** C5. The result of [add_case] is the outcome of the data manager's
    [add_case] (an exception counting as a failure), whatever the folder
    manager does afterwards, has or lacks; and after a failed insertion
    nothing else was called: the world is as the data manager left it. *)
Theorem add_case_result_is_metadata_outcome :
  forall (case_data : CaseData) (w : World),
    let added := dm_add_case (data_manager self) case_data w in
    let r := add_case self case_data w in
    result r = Returned (succeeded (fst added)) /\
    (succeeded (fst added) = false ->
     final_world r = snd added /\ trace r = [dm_add_case_call]).
Proof.
  intros case_data w added r. subst added r.
  unfold add_case. run_cases; split; try reflexivity; try discriminate; auto.
Qed.

Lemma mutate_then_save_commits (c : call) (mutation : method World bool) (w : World) :
  commits_by_saving self c mutation (mutate_then_save self c mutation) w.
Proof.
  unfold commits_by_saving, mutate_then_save, save_cases.
  run_cases; repeat split; try reflexivity; try discriminate; auto.
Qed.

(** C7. Each of the three progress-stage methods of the controller returns
    true exactly when the progress manager's mutation returned true and the
    save that follows it returned true; a save that returns false or raises
    makes the method return false. After a successful mutation the save is
    the next call; after a failed one nothing is saved. *)
Theorem progress_stage_mutations_commit_by_saving :
  forall (cid stage_name stage_date : string) (note time : option string) (w : World),
    commits_by_saving self pm_add_progress_stage_call
      (pm_add_progress_stage (progress_manager self) cid stage_name stage_date note time)
      (add_case_progress_stage self cid stage_name stage_date note time) w /\
    commits_by_saving self pm_update_progress_stage_call
      (pm_update_progress_stage (progress_manager self) cid stage_name stage_date note time)
      (update_case_progress_stage self cid stage_name stage_date note time) w /\
    commits_by_saving self pm_remove_progress_stage_call
      (pm_remove_progress_stage (progress_manager self) cid stage_name)
      (remove_case_progress_stage self cid stage_name) w.
Proof.
  intros. split; [| split]; apply mutate_then_save_commits.
Qed.


(** The run of [delete_case] on a record that was found, for any folder
    step and any outcome of it. *)
Lemma delete_case_with_run
  (folder_step : string -> M World bool) (cid : string) (ctype : option string)
  (w : World) (case : CaseData) (ctype' : string) (w0 : World) (t0 : list call)
  (o_f : outcome bool) (w1 : World) (t1 : list call) (o_d : outcome bool) (w2 : World) :
  find_case_to_delete self cid ctype w = (Returned (Some (case, ctype')), w0, t0) ->
  folder_step cid w0 = (o_f, w1, t1) ->
  dm_delete_case (data_manager self) cid ctype' w1 = (o_d, w2) ->
  delete_case_with self folder_step cid ctype true w
  = (Returned (succeeded o_d),
     (if succeeded o_d then rebind_cases self w2 else w2),
     t0 ++ t1 ++ [dm_delete_case_call cid ctype']).
Proof.
  intros Hfind Hstep Hdel. unfold delete_case_with.
  unfold try_except at 1. unfold bind at 1. rewrite Hfind.
  unfold_run. rewrite Hstep.
  destruct o_f as [b | e]; cbn; rewrite Hdel;
    destruct o_d as [[|] | e']; cbn; rewrite ?app_nil_r; reflexivity.
Qed.

(** The run of [delete_case_folder] when the path it resolved is not on the
    disk: success, with no deletion attempted. *)
Lemma delete_case_folder_absent
  (cid : string) (w0 : World) (case1 : CaseData) (wa : World)
  (p : string) (wb : World) (tb : list call) :
  dm_get_case_by_id (data_manager self) cid w0 = (Returned (Some case1), wa) ->
  resolve_folder_path self case1 wa = (Returned (Some p), wb, tb) ->
  p <> "" ->
  os_path_exists (disk self) p wb = false ->
  delete_case_folder self cid w0
  = (Returned true, wb, [dm_get_case_by_id_call] ++ tb ++ [os_path_exists_call p false]).
Proof.
  intros Hget Hres Hp Hex. unfold delete_case_folder, get_case_by_id.
  unfold try_except at 1. unfold bind at 1. unfold invoke at 1. rewrite Hget.
  unfold bind at 1. rewrite Hres.
  apply String.eqb_neq in Hp. rewrite Hp.
  unfold bind at 1, exists_on_disk at 1. rewrite Hex. cbn.
  rewrite ?app_nil_r. reflexivity.
Qed.

(** C3. On a record that was found, with folder deletion requested, the
    result of [delete_case] is the outcome of the data manager's
    [delete_case] (an exception counting as a failure), whatever the folder
    step returned or raised; the deletion of the record is called after the
    folder step, on the world that step left. And the controller's own folder
    step, when the path it resolved is not on the disk, reports success
    without attempting a deletion, so that [delete_case] returns true as soon
    as the record's deletion does. *)
Theorem delete_case_result_is_metadata_outcome :
  forall (cid : string) (ctype : option string) (w : World)
         (case : CaseData) (ctype' : string) (w0 : World) (t0 : list call),
    find_case_to_delete self cid ctype w = (Returned (Some (case, ctype')), w0, t0) ->
    (forall (folder_step : string -> M World bool)
            (o_f : outcome bool) (w1 : World) (t1 : list call)
            (o_d : outcome bool) (w2 : World),
        folder_step cid w0 = (o_f, w1, t1) ->
        dm_delete_case (data_manager self) cid ctype' w1 = (o_d, w2) ->
        delete_case_with self folder_step cid ctype true w
        = (Returned (succeeded o_d),
           (if succeeded o_d then rebind_cases self w2 else w2),
           t0 ++ t1 ++ [dm_delete_case_call cid ctype'])) /\
    (forall (case1 : CaseData) (wa : World) (p : string) (wb : World) (tb : list call)
            (o_d : outcome bool) (w2 : World),
        dm_get_case_by_id (data_manager self) cid w0 = (Returned (Some case1), wa) ->
        resolve_folder_path self case1 wa = (Returned (Some p), wb, tb) ->
        p <> "" ->
        os_path_exists (disk self) p wb = false ->
        dm_delete_case (data_manager self) cid ctype' wb = (o_d, w2) ->
        delete_case_folder self cid w0
        = (Returned true, wb,
           [dm_get_case_by_id_call] ++ tb ++ [os_path_exists_call p false]) /\
        result (delete_case self cid ctype true w) = Returned (succeeded o_d)).
Proof.
  intros cid ctype w case ctype' w0 t0 Hfind. split.
  - intros folder_step o_f w1 t1 o_d w2. now apply delete_case_with_run with (case := case).
  - intros case1 wa p wb tb o_d w2 Hget Hres Hp Hex Hdel.
    pose proof (delete_case_folder_absent cid w0 case1 wa p wb tb Hget Hres Hp Hex) as Hf.
    split; [exact Hf |].
    unfold delete_case.
    now rewrite (delete_case_with_run (delete_case_folder self) cid ctype w case ctype'
                   w0 t0 _ _ _ o_d w2 Hfind Hf Hdel).
Qed.

(** The check that closes [delete_case_folder]: a reported success is kept
    only if the path is gone, and nothing is looked at after a failure. *)
Lemma verify_deletion_run (p : string) (deletion_success : bool) (w : World) :
  verify_deletion self p deletion_success w
  = (Returned (deletion_success && negb (os_path_exists (disk self) p w)), w,
     if deletion_success then [os_path_exists_call p (os_path_exists (disk self) p w)]
     else []).
Proof.
  unfold verify_deletion. destruct deletion_success; [| reflexivity].
  unfold_run. now destruct (os_path_exists (disk self) p w).
Qed.

(** C6. When [delete_case_folder] returns true after having called a
    deletion primitive, its last act was the check of the folder path, the
    one it had found present before, and in the world it leaves that path is
    not there. The check itself turns a success reported for a path that is
    still there into a failure. *)
Theorem delete_case_folder_success_is_verified :
  forall (cid : string) (w w' : World) (tr : list call),
    delete_case_folder self cid w = (Returned true, w', tr) ->
    deletion_attempted tr = true ->
    (exists p,
        last_call tr = Some (os_path_exists_call p false) /\
        In (os_path_exists_call p true) tr /\
        os_path_exists (disk self) p w' = false) /\
    (forall p w3,
        os_path_exists (disk self) p w3 = true ->
        result (verify_deletion self p true w3) = Returned false).
Proof.
  intros cid w w' tr Hrun Hatt. split.
  - revert Hrun Hatt.
    unfold delete_case_folder, get_case_by_id, resolve_folder_path, delete_attempt_1,
      delete_attempt_2, delete_attempt_3, verify_deletion.
    run_cases; intros [= <- <-]; cbn; try discriminate; intros _;
      eexists; (split; [reflexivity |]); (split; [cbn; auto 20 | assumption]).
  - intros p w3 Hex. rewrite verify_deletion_run, Hex. reflexivity.
Qed.

(** An exception out of the spreadsheet step is not a returned flag: it
    reaches the handler of [update_case_id], which reports a failure although
    the rename stays done. *)
Lemma update_case_id_excel_exception
  (old_id ctype new_id : string) (w : World)
  (vmsg : string) (w1 : World) (dmsg : string) (w2 : World) (e : exn) (w3 : World) :
  validate_case_id_update (validator self) old_id ctype new_id w
  = (Returned (true, vmsg), w1) ->
  dm_update_case_id_with_files (data_manager self) old_id ctype new_id w1
  = (Returned (true, dmsg), w2) ->
  update_excel_content_for_case_id_change (import_export self) old_id new_id w2
  = (Raised e, w3) ->
  update_case_id self old_id ctype new_id w
  = (Returned (false, ("協調更新失敗: " ++ str_of_exn e)%string), w3,
     [validate_case_id_update_call; dm_update_case_id_with_files_call;
      update_excel_content_call]).
Proof.
  intros Hv Hr He. unfold update_case_id. unfold_run.
  rewrite Hv. cbn. rewrite Hr. cbn. rewrite He. reflexivity.
Qed.

End Sagas.

(** *** The two resolvers of the folder path *)
Section Resolvers.
Variable World : Type.
Variable os : Disk World.
Variable table : Dict.dict.

Lemma case_type_folder_known (case : CaseData) (folder : string) :
  Dict.get (case_type case) table = Some folder -> case_type_folder table case = folder.
Proof. unfold case_type_folder. now intros ->. Qed.

Lemma case_type_folder_unknown (case : CaseData) :
  Dict.get (case_type case) table = None -> case_type_folder table case = case_type case.
Proof. unfold case_type_folder. now intros ->. Qed.

(** The basic resolver answers with the path when it is on the disk and with
    [None] otherwise, and leaves the world as it found it. *)
Lemma basic_get_case_folder_path_run (base : string) (case : CaseData) (w : World) :
  basic_get_case_folder_path os table base case w
  = (Returned
       (let p := os_path_join base [case_type_folder table case; client case] in
        if os_path_exists os p w then Some p else None),
     w).
Proof. reflexivity. Qed.

(** The patched resolver answers with the path without looking at the
    disk, and leaves the world as it found it. *)
Lemma patched_get_case_folder_path_run (base : string) (case : CaseData) (w : World) :
  patched_get_case_folder_path table base case w
  = (Returned (Some (os_path_join base [case_type_folder table case; client case])), w).
Proof. reflexivity. Qed.

(** C8, where the code departs from it. For a record whose folder is not on
    the disk the basic resolver returns [None], as the claim says, but the
    resolver that [_patch_folder_manager] attaches returns the path all the
    same. Neither changes the world. *)
Theorem patched_resolver_returns_absent_path :
  forall (base : string) (case : CaseData) (w : World),
    let p := os_path_join base [case_type_folder table case; client case] in
    os_path_exists os p w = false ->
    basic_get_case_folder_path os table base case w = (Returned None, w) /\
    patched_get_case_folder_path table base case w = (Returned (Some p), w).
Proof.
  intros base case w p Hex. split; [| reflexivity].
  rewrite basic_get_case_folder_path_run. cbv zeta. fold p. now rewrite Hex.
Qed.

End Resolvers.

(** C8 on the small world: an old-style manager is patched by [__init__],
    the disk is empty, and the controller's [get_case_folder_path] hands out
    "data/civil/Mr. X". *)
Lemma patched_resolver_returns_absent_path_witness :
  os_path_exists Demo.demo_disk "data/civil/Mr. X" [] = false /\
  patched_get_case_folder_path Demo.demo_table "data" Samples.fresh []
  = (Returned (Some "data/civil/Mr. X"), @nil string) /\
  get_case_folder_path (Demo.controller Demo.patched_folder_manager true true true) "A1" []
  = (Returned (Some "data/civil/Mr. X"), [],
     [dm_get_case_by_id_call; fm_get_case_folder_path_call]) /\
  get_case_folder_path (Demo.controller Demo.basic_folder_manager true true true) "A1" []
  = (Returned None, [], [dm_get_case_by_id_call; fm_get_case_folder_path_call]).
Proof.
  split; [reflexivity |]. split; [| split; reflexivity].
  exact (proj2 (patched_resolver_returns_absent_path Demo.World Demo.demo_disk
                  Demo.demo_table "data" Samples.fresh [] eq_refl)).
Defined.

(** C5 on the small world: a store that refuses the record, and a store
    that takes it while the folder manager (the basic one) cannot create. *)
Lemma add_case_result_is_metadata_outcome_witness :
  result (add_case (Demo.controller Demo.basic_folder_manager true false true)
            Samples.fresh [])
  = Returned false /\
  trace (add_case (Demo.controller Demo.basic_folder_manager true false true)
           Samples.fresh [])
  = [dm_add_case_call] /\
  result (add_case (Demo.controller Demo.basic_folder_manager true true true)
            Samples.fresh [])
  = Returned true.
Proof.
  pose proof (add_case_result_is_metadata_outcome Demo.World
                (Demo.controller Demo.basic_folder_manager true false true)
                Samples.fresh []) as [Hres Hfail].
  pose proof (add_case_result_is_metadata_outcome Demo.World
                (Demo.controller Demo.basic_folder_manager true true true)
                Samples.fresh []) as [Hok _].
  split; [exact Hres |]. split; [exact (proj2 (Hfail eq_refl)) | exact Hok].
Defined.

(** C7 on the small world: the mutation succeeds and the save fails. *)
Lemma progress_stage_mutations_commit_by_saving_witness :
  result (add_case_progress_stage
            (Demo.controller Demo.basic_folder_manager true false true)
            "A1" "filed" "2024-01-15" None None [])
  = Returned false /\
  trace (remove_case_progress_stage
           (Demo.controller Demo.basic_folder_manager true false true) "A1" "filed" [])
  = [pm_remove_progress_stage_call; dm_save_cases_call] /\
  result (update_case_progress_stage
            (Demo.controller Demo.basic_folder_manager true true true)
            "A1" "filed" "2024-01-15" None None [])
  = Returned true.
Proof.
  destruct (progress_stage_mutations_commit_by_saving Demo.World
              (Demo.controller Demo.basic_folder_manager true false true)
              "A1" "filed" "2024-01-15" None None [])
    as [[Hadd _] [_ [_ [Hrem _]]]].
  destruct (progress_stage_mutations_commit_by_saving Demo.World
              (Demo.controller Demo.basic_folder_manager true true true)
              "A1" "filed" "2024-01-15" None None [])
    as [_ [[Hupd _] _]].
  split; [exact Hadd |]. split; [exact (proj1 (Hrem eq_refl)) | exact Hupd].
Defined.



(** C3 on the small world: the record is there, its folder is not, the
    folder step raises, and the deletion of the record succeeds. *)
Lemma delete_case_result_is_metadata_outcome_witness :
  find_case_to_delete (Demo.controller Demo.patched_folder_manager true true true)
    "A1" None []
  = (Returned (Some (Samples.fresh, "civil")), [], [dm_get_case_by_id_call]) /\
  delete_case_with (Demo.controller Demo.patched_folder_manager true true true)
    Demo.raising_step "A1" None true []
  = (Returned true, [], [dm_get_case_by_id_call; dm_delete_case_call "A1" "civil"]) /\
  result (delete_case (Demo.controller Demo.patched_folder_manager true true true)
            "A1" None true [])
  = Returned true.
Proof.
  pose proof (delete_case_result_is_metadata_outcome Demo.World
                (Demo.controller Demo.patched_folder_manager true true true)
                "A1" None [] Samples.fresh "civil" [] [dm_get_case_by_id_call] eq_refl)
    as [Hany Hown].
  split; [reflexivity |]. split.
  - exact (Hany Demo.raising_step (Raised (OtherException "disk error")) [] []
             (Returned true) [] eq_refl eq_refl).
  - refine (proj2 (Hown Samples.fresh [] "data/civil/Mr. X" []
                     [fm_get_case_folder_path_call] (Returned true) []
                     eq_refl eq_refl _ eq_refl eq_refl)).
    discriminate.
Defined.

(** C6 on the small world: the folder is on the disk and [shutil.rmtree]
    removes it. *)
Lemma delete_case_folder_success_is_verified_witness :
  delete_case_folder (Demo.controller Demo.patched_folder_manager true true true)
    "A1" ["data/civil/Mr. X"]
  = (Returned true, [],
     [dm_get_case_by_id_call; fm_get_case_folder_path_call;
      os_path_exists_call "data/civil/Mr. X" true; os_listdir_call "data/civil/Mr. X";
      shutil_rmtree_call "data/civil/Mr. X";
      os_path_exists_call "data/civil/Mr. X" false]) /\
  exists p,
    os_path_exists Demo.demo_disk p [] = false /\
    p = "data/civil/Mr. X".
Proof.
  split; [reflexivity |].
  destruct (delete_case_folder_success_is_verified Demo.World
              (Demo.controller Demo.patched_folder_manager true true true)
              "A1" ["data/civil/Mr. X"] [] _ eq_refl eq_refl) as [[p (Hlast & _ & Hgone)] _].
  exists p. split; [exact Hgone |]. now injection Hlast as <-.
Defined.

End ControllerFacts.

(** ** The remaining methods of [CaseData] *)
Module CaseModelMoreFacts.
Import Py CaseModel CaseModelMore Samples.

Lemma contains_delitem (k k' : string) (d : Dict.dict) :
  Dict.contains k' (Dict.delitem k d) = negb (k =? k') && Dict.contains k' d.
Proof.
  destruct (String.eqb_spec k k') as [-> | Hne]; simpl.
  - apply DictFacts.contains_delitem_same.
  - apply DictFacts.contains_delitem_other. congruence.
Qed.

Lemma contains_drop (k k' : string) (d : Dict.dict) :
  Dict.contains k' (drop k d) = negb (k =? k') && Dict.contains k' d.
Proof. rewrite CaseModelFacts.drop_delitem. apply contains_delitem. Qed.

Lemma delitem_absent (k : string) (d : Dict.dict) :
  Dict.contains k d = false -> Dict.delitem k d = d.
Proof.
  induction d as [| [k0 v0] r IH]; simpl; [reflexivity |].
  intros H. apply orb_false_iff in H as [H1 H2]. rewrite H1. simpl.
  now rewrite IH.
Qed.

Lemma delitem_setitem_absent (k v : string) (d : Dict.dict) :
  Dict.contains k d = false -> Dict.delitem k (Dict.setitem k v d) = d.
Proof.
  induction d as [| [k0 v0] r IH]; simpl.
  - now rewrite String.eqb_refl.
  - intros H. apply orb_false_iff in H as [H1 H2]. rewrite H1. simpl.
    rewrite H1. simpl. now rewrite IH.
Qed.

Lemma get_setitem_same (k v : string) (d : Dict.dict) :
  Dict.get k (Dict.setitem k v d) = Some v.
Proof.
  induction d as [| [k0 v0] r IH]; simpl.
  - now rewrite String.eqb_refl.
  - destruct (k0 =? k) eqn:E; simpl; now rewrite E.
Qed.

Lemma get_setitem_other (k k' v : string) (d : Dict.dict) :
  k' <> k -> Dict.get k' (Dict.setitem k v d) = Dict.get k' d.
Proof.
  intros Hne. induction d as [| [k0 v0] r IH]; simpl.
  - apply not_eq_sym in Hne. apply String.eqb_neq in Hne. now rewrite Hne.
  - destruct (k0 =? k) eqn:E; simpl.
    + apply String.eqb_eq in E. subst k0.
      apply not_eq_sym in Hne. apply String.eqb_neq in Hne. now rewrite Hne.
    + now rewrite IH.
Qed.

Lemma contains_set_or_drop (k k' : string) (x : option string) (d : Dict.dict) :
  Dict.contains k' (set_or_drop k x d) = true ->
  k' = k \/ Dict.contains k' d = true.
Proof.
  unfold set_or_drop.
  destruct x as [v |]; [destruct (negb (v =? "")) |].
  - rewrite DictFacts.contains_setitem, orb_true_iff, String.eqb_eq. intuition.
  - fold (drop k d). rewrite contains_drop, andb_true_iff. intuition.
  - fold (drop k d). rewrite contains_drop, andb_true_iff. intuition.
Qed.

Lemma contains_set_if_given (k k' : string) (x : option string) (d : Dict.dict) :
  Dict.contains k' (set_if_given k x d) = true ->
  k' = k \/ Dict.contains k' d = true.
Proof.
  unfold set_if_given.
  destruct x as [v |]; [destruct (negb (v =? "")) |]; auto.
  rewrite DictFacts.contains_setitem, orb_true_iff, String.eqb_eq. intuition.
Qed.

Lemma contains_set_or_clear (k k' x : string) (d : Dict.dict) :
  Dict.contains k' (set_or_clear k x d) = true ->
  k' = k \/ Dict.contains k' d = true.
Proof.
  unfold set_or_clear. destruct (negb (x =? "")).
  - rewrite DictFacts.contains_setitem, orb_true_iff, String.eqb_eq. intuition.
  - fold (drop k d). rewrite contains_drop, andb_true_iff. intuition.
Qed.

Lemma remove_progress_notes (now : datetime) (c : CaseData) (s : string) :
  progress_notes (snd (remove_progress_stage now c s)) = drop s (progress_notes c).
Proof.
  unfold remove_progress_stage.
  repeat match goal with
         | |- context [if ?b then _ else _] =>
             lazymatch b with
             | Dict.contains _ (progress_notes _) => fail
             | _ => destruct b
             end
         | |- context [match ?l with [] => _ | _ :: _ => _ end] => destruct l as [| [? ?] ?]
         end; reflexivity.
Qed.

Lemma remove_progress_times (now : datetime) (c : CaseData) (s : string) :
  progress_times (snd (remove_progress_stage now c s)) = drop s (progress_times c).
Proof.
  unfold remove_progress_stage.
  repeat match goal with
         | |- context [if ?b then _ else _] =>
             lazymatch b with
             | Dict.contains _ (progress_times _) => fail
             | _ => destruct b
             end
         | |- context [match ?l with [] => _ | _ :: _ => _ end] => destruct l as [| [? ?] ?]
         end; reflexivity.
Qed.

(** X1. Only recorded stages carry a note or a time, and every method that
    writes the progress state keeps it so. *)
Theorem annotations_stay_within_stages :
  forall (today now : datetime) (c : CaseData) (s x : string) (d n t : option string),
    annotations_within_stages c ->
    annotations_within_stages (update_progress today now c s d n t) /\
    annotations_within_stages (add_progress_stage today now c s d n t) /\
    annotations_within_stages (snd (remove_progress_stage now c s)) /\
    annotations_within_stages (update_stage_note now c s x) /\
    annotations_within_stages (update_stage_time now c s x) /\
    annotations_within_stages (update_stage_date now c s x).
Proof.
  intros today now c s x d n t Hc.
  assert (Hset : forall k v, (k = s \/ Dict.contains k (progress_stages c) = true) ->
                 Dict.contains k (Dict.setitem s v (progress_stages c)) = true).
  { intros k v [-> | Hk]; rewrite DictFacts.contains_setitem.
    - now rewrite String.eqb_refl.
    - rewrite Hk. apply orb_true_r. }
  assert (Hn : forall k, Dict.contains k (progress_notes c) = true ->
                         Dict.contains k (progress_stages c) = true)
    by (intros k; apply (proj1 (Hc k))).
  assert (Ht : forall k, Dict.contains k (progress_times c) = true ->
                         Dict.contains k (progress_stages c) = true)
    by (intros k; apply (proj2 (Hc k))).
  repeat split.
  - intros Hk. apply contains_set_or_drop in Hk. apply Hset.
    destruct Hk as [-> | Hk]; [now left | right; now apply Hn].
  - intros Hk. apply contains_set_or_drop in Hk. apply Hset.
    destruct Hk as [-> | Hk]; [now left | right; now apply Ht].
  - intros Hk. apply contains_set_if_given in Hk. apply Hset.
    destruct Hk as [-> | Hk]; [now left | right; now apply Hn].
  - intros Hk. apply contains_set_if_given in Hk. apply Hset.
    destruct Hk as [-> | Hk]; [now left | right; now apply Ht].
  - rewrite remove_progress_notes, CaseModelFacts.remove_progress_stages.
    rewrite contains_drop, contains_delitem, !andb_true_iff.
    intros [H1 H2]. split; [exact H1 | now apply Hn].
  - rewrite remove_progress_times, CaseModelFacts.remove_progress_stages.
    rewrite contains_drop, contains_delitem, !andb_true_iff.
    intros [H1 H2]. split; [exact H1 | now apply Ht].
  - unfold update_stage_note.
    destruct (Dict.contains s (progress_stages c)) eqn:Hs; [| apply Hn]. simpl.
    intros Hk. apply contains_set_or_clear in Hk.
    destruct Hk as [-> | Hk]; [exact Hs | now apply Hn].
  - unfold update_stage_note.
    destruct (Dict.contains s (progress_stages c)) eqn:Hs; [| apply Ht]. simpl.
    apply Ht.
  - unfold update_stage_time.
    destruct (Dict.contains s (progress_stages c)) eqn:Hs; [| apply Hn]. simpl.
    apply Hn.
  - unfold update_stage_time.
    destruct (Dict.contains s (progress_stages c)) eqn:Hs; [| apply Ht]. simpl.
    intros Hk. apply contains_set_or_clear in Hk.
    destruct Hk as [-> | Hk]; [exact Hs | now apply Ht].
  - unfold update_stage_date.
    destruct (Dict.contains s (progress_stages c)) eqn:Hs; [| apply Hn]. simpl.
    intros Hk. apply Hset. right. now apply Hn.
  - unfold update_stage_date.
    destruct (Dict.contains s (progress_stages c)) eqn:Hs; [| apply Ht]. simpl.
    intros Hk. apply Hset. right. now apply Ht.
Qed.

Lemma annotations_stay_within_stages_witness :
  annotations_within_stages annotated /\
  annotations_within_stages (snd (remove_progress_stage clock0 annotated "hearing")) /\
  annotations_within_stages
    (add_progress_stage clock0 clock0 annotated "ruling" None (Some "in writing") None).
Proof.
  assert (H : annotations_within_stages annotated).
  { intros k. simpl. rewrite !orb_false_r. split; intros ->; apply orb_true_r. }
  pose proof (annotations_stay_within_stages clock0 clock0 annotated "hearing" ""
                None None None H) as Hh.
  pose proof (annotations_stay_within_stages clock0 clock0 annotated "ruling" ""
                None (Some "in writing") None H) as Hr.
  split; [exact H |].
  split; [exact (proj1 (proj2 (proj2 Hh))) | exact (proj1 (proj2 Hr))].
Defined.

(** X2. On a recorded stage, what [update_stage_note] stores is what
    [get_stage_note] reads back, the empty text included (it deletes the
    note); the notes of the other stages stay. The same holds of
    [update_stage_time] and [get_stage_time]. *)
Theorem stage_note_and_time_round_trip :
  forall (now : datetime) (c : CaseData) (s x : string),
    Dict.contains s (progress_stages c) = true ->
    get_stage_note (update_stage_note now c s x) s = x /\
    (forall k, k <> s ->
       get_stage_note (update_stage_note now c s x) k = get_stage_note c k) /\
    get_stage_time (update_stage_time now c s x) s = x /\
    (forall k, k <> s ->
       get_stage_time (update_stage_time now c s x) k = get_stage_time c k).
Proof.
  intros now c s x Hs.
  assert (Hsame : forall d, get_or_empty s (set_or_clear s x d) = x).
  { intros d. unfold get_or_empty, set_or_clear.
    destruct (String.eqb_spec x "") as [-> | Hx]; simpl.
    - fold (drop s d). rewrite CaseModelFacts.drop_delitem.
      assert (H : Dict.get s (Dict.delitem s d) = None)
        by apply DictFacts.get_none_contains, DictFacts.contains_delitem_same.
      now rewrite H.
    - now rewrite get_setitem_same. }
  assert (Hother : forall d k, k <> s ->
            get_or_empty k (set_or_clear s x d) = get_or_empty k d).
  { intros d k Hk. unfold get_or_empty, set_or_clear.
    destruct (negb (x =? "")).
    - now rewrite get_setitem_other.
    - fold (drop s d). rewrite CaseModelFacts.drop_delitem.
      now rewrite DictFacts.get_delitem_other. }
  unfold get_stage_note, get_stage_time, update_stage_note, update_stage_time.
  rewrite Hs. simpl. repeat split; auto.
Qed.

Lemma stage_note_and_time_round_trip_witness :
  Dict.contains "filed" (progress_stages annotated) = true /\
  get_stage_note (update_stage_note clock0 annotated "filed" "paid the fee") "filed"
  = "paid the fee" /\
  get_stage_time (update_stage_time clock0 annotated "hearing" "") "hearing" = "".
Proof.
  split; [reflexivity |]. split.
  - exact (proj1 (stage_note_and_time_round_trip clock0 annotated "filed"
                    "paid the fee" eq_refl)).
  - exact (proj1 (proj2 (proj2 (stage_note_and_time_round_trip clock0 annotated
                                  "hearing" "" eq_refl)))).
Defined.

Lemma remove_flag_unrecorded (now : datetime) (c : CaseData) (s : string) :
  Dict.contains s (progress_stages c) = false ->
  fst (remove_progress_stage now c s) = false /\
  updated_date (snd (remove_progress_stage now c s)) = updated_date c.
Proof.
  intros Hin. unfold remove_progress_stage. rewrite Hin.
  repeat match goal with
         | |- context [if ?b then _ else _] => destruct b
         | |- context [match ?l with [] => _ | _ :: _ => _ end] =>
             destruct l as [| [? ?] ?]
         end; split; reflexivity.
Qed.

(** X3. [remove_progress_stage] returns true exactly when the stage was
    recorded; when it returns false the recorded stages and the timestamp
    are as they were. *)
Theorem remove_progress_stage_flag :
  forall (now : datetime) (c : CaseData) (s : string),
    let r := remove_progress_stage now c s in
    fst r = Dict.contains s (progress_stages c) /\
    (fst r = false ->
     progress_stages (snd r) = progress_stages c /\
     updated_date (snd r) = updated_date c).
Proof.
  intros now c s r. subst r.
  destruct (Dict.contains s (progress_stages c)) eqn:Hin.
  - split; [now apply CaseModelFacts.remove_flag |].
    rewrite CaseModelFacts.remove_flag by exact Hin. discriminate.
  - pose proof (remove_flag_unrecorded now c s Hin) as Hflag.
    split; [apply Hflag |]. intros _. split; [| apply Hflag].
    rewrite CaseModelFacts.remove_progress_stages. now apply delitem_absent.
Qed.

(** X4. Naming the current progress when it is not a recorded stage (as
    on a record that still has the default progress) makes
    [remove_progress_stage] return false and all the same move [progress]: to
    a recorded stage when there is one, to the empty text otherwise. *)
Theorem remove_unrecorded_current_progress :
  forall (now : datetime) (c : CaseData) (s : string),
    s = progress c ->
    Dict.contains s (progress_stages c) = false ->
    let r := remove_progress_stage now c s in
    fst r = false /\
    (progress_stages c = [] -> progress (snd r) = "") /\
    (progress_stages c <> [] ->
     progress (snd r) <> progress c /\
     Dict.contains (progress (snd r)) (progress_stages c) = true).
Proof.
  intros now c s Hs Hin r. subst r.
  split; [now apply remove_flag_unrecorded |].
  pose proof (delitem_absent s (progress_stages c) Hin) as Hrest.
  split.
  - intros Hnil. rewrite (CaseModelFacts.remove_current_progress now c s Hs).
    rewrite Hrest, Hnil. reflexivity.
  - intros Hne.
    assert (Hne' : Dict.delitem s (progress_stages c) <> []) by now rewrite Hrest.
    pose proof (CaseModelFacts.remove_progress_in_rest now c s Hs Hne') as Hk.
    rewrite Hrest in Hk. split; [| exact Hk].
    intros E. rewrite E, <- Hs, Hin in Hk. discriminate.
Qed.

Lemma remove_unrecorded_current_progress_witness :
  "待處理" = progress SamplesMore.pending_with_stages /\
  Dict.contains "待處理" (progress_stages SamplesMore.pending_with_stages) = false /\
  fst (remove_progress_stage clock0 SamplesMore.pending_with_stages "待處理") = false /\
  progress (snd (remove_progress_stage clock0 SamplesMore.pending_with_stages "待處理"))
  = "hearing".
Proof.
  split; [reflexivity |]. split; [reflexivity |]. split; [| reflexivity].
  exact (proj1 (remove_unrecorded_current_progress clock0
                  SamplesMore.pending_with_stages "待處理" eq_refl eq_refl)).
Defined.

(** X5. [update_progress] leaves [progress_date] equal to the date recorded
    for the current progress; [update_stage_date], [update_stage_note] and
    [update_stage_time] keep that equality, and so does [add_progress_stage]
    for a stage other than the current one. *)
Theorem progress_date_tracks_current_stage :
  forall (today now : datetime) (c : CaseData) (s x : string) (d n t : option string),
    date_is_current (update_progress today now c s d n t) /\
    (date_is_current c ->
     date_is_current (update_stage_date now c s x) /\
     date_is_current (update_stage_note now c s x) /\
     date_is_current (update_stage_time now c s x) /\
     (s <> progress c -> date_is_current (add_progress_stage today now c s d n t))).
Proof.
  intros today now c s x d n t. unfold date_is_current. split.
  - simpl. now rewrite get_setitem_same.
  - intros Hc. repeat split.
    + unfold update_stage_date.
      destruct (Dict.contains s (progress_stages c)); [| exact Hc]. simpl.
      destruct (String.eqb_spec s (progress c)) as [<- | Hne].
      * now rewrite get_setitem_same.
      * rewrite get_setitem_other by congruence. exact Hc.
    + unfold update_stage_note.
      now destruct (Dict.contains s (progress_stages c)).
    + unfold update_stage_time.
      now destruct (Dict.contains s (progress_stages c)).
    + intros Hne. simpl. rewrite get_setitem_other by congruence. exact Hc.
Qed.

Lemma progress_date_tracks_current_stage_witness :
  date_is_current filed_hearing /\
  date_is_current (update_stage_date clock0 filed_hearing "hearing" "2024-03-08") /\
  progress_date (update_stage_date clock0 filed_hearing "hearing" "2024-03-08")
  = Some "2024-03-08".
Proof.
  assert (H : date_is_current filed_hearing) by reflexivity.
  split; [exact H |]. split; [| reflexivity].
  exact (proj1 (proj2 (progress_date_tracks_current_stage clock0 clock0 filed_hearing
                         "hearing" "2024-03-08" None None None) H)).
Defined.

(** X6. On a recorded stage [update_stage_date] rewrites the date in place:
    the stages and their order stay, the stage reads the new date and the
    other stages read what they did. *)
Theorem update_stage_date_in_place :
  forall (now : datetime) (c : CaseData) (s x : string),
    Dict.contains s (progress_stages c) = true ->
    let c' := update_stage_date now c s x in
    Dict.keys (progress_stages c') = Dict.keys (progress_stages c) /\
    Dict.get s (progress_stages c') = Some x /\
    (forall k, k <> s ->
       Dict.get k (progress_stages c') = Dict.get k (progress_stages c)).
Proof.
  intros now c s x Hs c'. subst c'. unfold update_stage_date. rewrite Hs. simpl.
  split; [now rewrite DictFacts.keys_setitem, Hs |].
  split; [apply get_setitem_same |].
  intros k Hk. now apply get_setitem_other.
Qed.

Lemma update_stage_date_in_place_witness :
  Dict.contains "filed" (progress_stages filed_hearing) = true /\
  Dict.keys (progress_stages (update_stage_date clock0 filed_hearing "filed" "2024-02-02"))
  = ["filed"; "hearing"].
Proof.
  split; [reflexivity |].
  exact (proj1 (update_stage_date_in_place clock0 filed_hearing "filed" "2024-02-02"
                  eq_refl)).
Defined.

Lemma drop_set_if_given_absent (k : string) (x : option string) (d : Dict.dict) :
  Dict.contains k d = false -> drop k (set_if_given k x d) = d.
Proof.
  intros H. rewrite CaseModelFacts.drop_delitem. unfold set_if_given.
  destruct x as [v |]; [destruct (negb (v =? "")) |].
  - now apply delitem_setitem_absent.
  - now apply delitem_absent.
  - now apply delitem_absent.
Qed.

(** X7. Adding a stage that was not recorded and is not the current
    progress, and removing it again, gives back the progress, its date, the
    stages, the notes and the times the record had. *)
Theorem add_then_remove_restores :
  forall (today now now' : datetime) (c : CaseData) (s : string) (d n t : option string),
    annotations_within_stages c ->
    Dict.contains s (progress_stages c) = false ->
    s <> progress c ->
    let r := remove_progress_stage now' (add_progress_stage today now c s d n t) s in
    fst r = true /\
    progress (snd r) = progress c /\
    progress_date (snd r) = progress_date c /\
    progress_stages (snd r) = progress_stages c /\
    progress_notes (snd r) = progress_notes c /\
    progress_times (snd r) = progress_times c.
Proof.
  intros today now now' c s d n t Hc Hs Hne r. subst r.
  assert (Hn : Dict.contains s (progress_notes c) = false).
  { destruct (Dict.contains s (progress_notes c)) eqn:E; [| reflexivity].
    apply (proj1 (Hc s)) in E. congruence. }
  assert (Ht : Dict.contains s (progress_times c) = false).
  { destruct (Dict.contains s (progress_times c)) eqn:E; [| reflexivity].
    apply (proj2 (Hc s)) in E. congruence. }
  split.
  { apply CaseModelFacts.remove_flag. simpl.
    rewrite DictFacts.contains_setitem. now rewrite String.eqb_refl. }
  split; [now rewrite CaseModelFacts.remove_other_progress |].
  split; [now rewrite CaseModelFacts.remove_progress_date |].
  split.
  { rewrite CaseModelFacts.remove_progress_stages. simpl.
    now apply delitem_setitem_absent. }
  split.
  - rewrite remove_progress_notes. simpl. now apply drop_set_if_given_absent.
  - rewrite remove_progress_times. simpl. now apply drop_set_if_given_absent.
Qed.

Lemma add_then_remove_restores_witness :
  annotations_within_stages filed_hearing /\
  Dict.contains "ruling" (progress_stages filed_hearing) = false /\
  "ruling" <> progress filed_hearing /\
  progress_stages
    (snd (remove_progress_stage clock0
            (add_progress_stage clock0 clock0 filed_hearing "ruling"
               (Some "2024-05-01") (Some "in writing") None) "ruling"))
  = progress_stages filed_hearing.
Proof.
  assert (H : annotations_within_stages filed_hearing)
    by (intros k; split; discriminate).
  assert (Hne : "ruling" <> progress filed_hearing) by discriminate.
  split; [exact H |]. split; [reflexivity |]. split; [exact Hne |].
  exact (proj1 (proj2 (proj2 (proj2
           (add_then_remove_restores clock0 clock0 clock0 filed_hearing "ruling"
              (Some "2024-05-01") (Some "in writing") None H eq_refl Hne))))).
Defined.

Section OrderedStages.
Variable A : Type.
Variable key : A -> string.

Let below (a b : A) : Prop := (key a <=? key b) = true.

Lemma insert_asc_permutation (x : A) (l : list A) :
  Permutation (insert_asc key x l) (x :: l).
Proof.
  induction l as [| y r IH]; simpl; [apply Permutation_refl |].
  destruct (key x <=? key y); [apply Permutation_refl |].
  eapply Permutation_trans; [apply perm_skip, IH | apply perm_swap].
Qed.

Lemma sorted_permutation (l : list A) : Permutation (sorted key l) l.
Proof.
  induction l as [| x l IH]; simpl; [constructor |].
  eapply Permutation_trans; [apply insert_asc_permutation | now apply perm_skip].
Qed.

Lemma insert_asc_sorted (x : A) (l : list A) :
  StronglySorted below l -> StronglySorted below (insert_asc key x l).
Proof.
  induction l as [| y r IH]; simpl; intros Hl.
  - repeat constructor.
  - inversion Hl as [| ? ? Hr Hy]; subst.
    destruct (key x <=? key y) eqn:E.
    + constructor; [exact Hl |]. constructor; [exact E |].
      eapply Forall_impl; [| exact Hy]. intros z Hz.
      unfold below in *. eapply PyFacts.leb_trans; eassumption.
    + constructor; [now apply IH |].
      apply (Permutation_Forall (Permutation_sym (insert_asc_permutation x r))).
      constructor; [| exact Hy].
      unfold below. now apply PyFacts.ltb_leb, PyFacts.not_leb_ltb.
Qed.

Lemma sorted_sorted (l : list A) : StronglySorted below (sorted key l).
Proof.
  induction l as [| x l IH]; simpl; [constructor | now apply insert_asc_sorted].
Qed.

End OrderedStages.

(** X8. [get_ordered_stages] lists every recorded stage once, by
    non-decreasing date, a stage without a date counting as dated
    9999-12-31. *)
Theorem get_ordered_stages_sorted_permutation :
  forall (c : CaseData),
    Permutation (get_ordered_stages c) (Dict.items (progress_stages c)) /\
    StronglySorted (fun a b => (ordering_date a <=? ordering_date b) = true)
      (get_ordered_stages c).
Proof.
  intros c. split; [apply sorted_permutation | apply sorted_sorted].
Qed.

Example get_ordered_stages_undated_last :
  get_ordered_stages SamplesMore.with_undated
  = [("filed", "2024-01-01"); ("hearing", "2024-03-01"); ("appeal", "")].
Proof. reflexivity. Qed.

Lemma from_dict_stages (fromisoformat : string -> option datetime)
  (data : pydict) (c : CaseData) :
  from_dict fromisoformat data = inl c -> stages_of data = inl (progress_stages c).
Proof.
  unfold from_dict, and_then.
  repeat match goal with
         | |- context [match ?x with inl _ => _ | inr _ => _ end] =>
             destruct x; try discriminate
         end.
  now intros [= <-].
Qed.

(** X9. [from_dict] undoes [to_dict], for a record whose two timestamps
    [datetime.fromisoformat] reads back from their ISO texts. *)
Theorem from_dict_to_dict :
  forall (fromisoformat : string -> option datetime) (c : CaseData),
    fromisoformat (isoformat (created_date c)) = Some (created_date c) ->
    fromisoformat (isoformat (updated_date c)) = Some (updated_date c) ->
    from_dict fromisoformat (to_dict c) = inl c.
Proof.
  intros fromisoformat c Hc Hu.
  destruct c as [cid ctype cl lw la p cr cn op ct dv pd stages notes times created updated].
  simpl in Hc, Hu.
  unfold from_dict, to_dict, parsed_date, required_text, optional_text, optional_dict,
    progress_of, stages_of, and_then, of_option.
  cbn. rewrite Hc, Hu.
  destruct lw, la, cr, cn, op, ct, dv, pd, stages; reflexivity.
Qed.

Lemma from_dict_to_dict_witness :
  SamplesMore.read_iso (isoformat (created_date annotated)) = Some (created_date annotated) /\
  SamplesMore.read_iso (isoformat (updated_date annotated)) = Some (updated_date annotated) /\
  from_dict SamplesMore.read_iso (to_dict annotated) = inl annotated.
Proof.
  split; [reflexivity |]. split; [reflexivity |].
  exact (from_dict_to_dict SamplesMore.read_iso annotated eq_refl eq_refl).
Defined.

(** X10. Which stages [from_dict] gives a record: those under
    [progress_stages] when there are any, whatever [progress_history] holds;
    and those under [progress_history] when [progress_stages] is missing,
    [None] or empty. *)
Theorem from_dict_stage_sources :
  forall (fromisoformat : string -> option datetime) (data : pydict) (c : CaseData),
    from_dict fromisoformat data = inl c ->
    (forall kv r,
        lookup "progress_stages" data = Some (VDict (kv :: r)) ->
        progress_stages c = kv :: r) /\
    (forall h,
        lookup "progress_stages" data = None \/
        lookup "progress_stages" data = Some VNone \/
        lookup "progress_stages" data = Some (VDict []) ->
        lookup "progress_history" data = Some (VDict h) ->
        progress_stages c = h).
Proof.
  intros fromisoformat data c Hb. apply from_dict_stages in Hb.
  unfold stages_of in Hb. split.
  - intros kv r H. rewrite H in Hb. congruence.
  - intros h [H | [H | H]] Hh; rewrite H, Hh in Hb; congruence.
Qed.

Lemma from_dict_stage_sources_witness :
  exists c,
    from_dict SamplesMore.read_iso SamplesMore.legacy_data = inl c /\
    progress_stages c = [("filed", "2024-01-01")].
Proof.
  eexists. split; [reflexivity |].
  exact (proj2 (from_dict_stage_sources SamplesMore.read_iso SamplesMore.legacy_data _
                  eq_refl) [("filed", "2024-01-01")] (or_introl eq_refl) eq_refl).
Defined.

End CaseModelMoreFacts.

(** ** The remaining methods of [CaseController] *)
Module ControllerMoreFacts.
Import Py CaseModel Controller ControllerMore ControllerFacts.

Section MoreSagas.
Variable World : Type.
Variable self : CaseController World.

(** X12. When the record is not found, [delete_case] returns false after
    the lookup alone: by id when no type is given, through the list of all
    records when one is, an exception of that list counting as not found.
    Neither the folder step nor the data manager's deletion is called. *)
Theorem delete_case_not_found_touches_nothing :
  forall (folder_step : string -> M World bool) (cid : string) (delete_folder : bool)
         (w : World),
    (forall o w0,
        dm_get_case_by_id (data_manager self) cid w = (o, w0) ->
        (forall case, o <> Returned (Some case)) ->
        delete_case_with self folder_step cid None delete_folder w
        = (Returned false, w0, [dm_get_case_by_id_call])) /\
    (forall ctype o w0,
        dm_get_cases (data_manager self) w = (o, w0) ->
        (forall l case, o = Returned l -> In case l ->
                        case_id case = cid -> case_type case <> ctype) ->
        delete_case_with self folder_step cid (Some ctype) delete_folder w
        = (Returned false, w0, [dm_get_cases_call])).
Proof.
  intros folder_step cid delete_folder w. split.
  - intros o w0 Hget Ho.
    unfold delete_case_with, find_case_to_delete, get_case_by_id. unfold_run.
    rewrite Hget. destruct o as [[case |] | e]; cbn; try reflexivity.
    now elim (Ho case).
  - intros ctype o w0 Hget Ho.
    unfold delete_case_with, find_case_to_delete, get_case_by_id_and_type, get_cases.
    unfold_run. rewrite Hget. destruct o as [l | e]; cbn; [| reflexivity].
    destruct (find (fun case => (case_id case =? cid) && (case_type case =? ctype)) l)
      as [case |] eqn:Hfind; cbn; [| reflexivity].
    apply find_some in Hfind as [Hin Hmatch].
    apply andb_true_iff in Hmatch as [H1 H2].
    apply String.eqb_eq in H1, H2. now elim (Ho l case eq_refl Hin H1).
Qed.

(** X13. Without folder deletion, [delete_case] on a record that was found
    calls the data manager's deletion right after the lookup and nothing of
    the folder step; its result is the outcome of that deletion. *)
Theorem delete_case_without_folder_deletion :
  forall (folder_step : string -> M World bool) (cid : string) (ctype : option string)
         (w : World) (case : CaseData) (ctype' : string) (w0 : World) (t0 : list call)
         (o_d : outcome bool) (w2 : World),
    find_case_to_delete self cid ctype w = (Returned (Some (case, ctype')), w0, t0) ->
    dm_delete_case (data_manager self) cid ctype' w0 = (o_d, w2) ->
    delete_case_with self folder_step cid ctype false w
    = (Returned (succeeded o_d),
       (if succeeded o_d then rebind_cases self w2 else w2),
       t0 ++ [dm_delete_case_call cid ctype']).
Proof.
  intros folder_step cid ctype w case ctype' w0 t0 o_d w2 Hfind Hdel.
  unfold delete_case_with. unfold try_except at 1. unfold bind at 1. rewrite Hfind.
  unfold_run. rewrite Hdel.
  destruct o_d as [[|] | e]; cbn; rewrite ?app_nil_r; reflexivity.
Qed.

(** X14. With the basic folder manager, [delete_case_folder] on a record
    whose folder is not on the disk returns false: the basic resolver answers
    [None] for it, so the branch that counts an absent folder as deleted is
    not reached. Nothing is deleted and nothing else is looked at. *)
Theorem delete_case_folder_basic_manager_absent :
  forall (table : Dict.dict) (base cid : string) (w : World) (case : CaseData) (w1 : World),
    folder_manager self = _create_basic_folder_manager (disk self) table base ->
    dm_get_case_by_id (data_manager self) cid w = (Returned (Some case), w1) ->
    os_path_exists (disk self)
      (os_path_join base [case_type_folder table case; client case]) w1 = false ->
    delete_case_folder self cid w
    = (Returned false, w1, [dm_get_case_by_id_call; fm_get_case_folder_path_call]).
Proof.
  intros table base cid w case w1 Hfm Hget Hex.
  unfold delete_case_folder, get_case_by_id, resolve_folder_path.
  rewrite Hfm. unfold _create_basic_folder_manager.
  cbn -[os_path_join case_type_folder].
  unfold_run. rewrite Hget. cbn -[os_path_join case_type_folder].
  unfold basic_get_case_folder_path. cbn -[os_path_join case_type_folder].
  rewrite Hex. reflexivity.
Qed.

(** X15. [_delete_case_folder_basic] trusts [shutil.rmtree]: for a folder
    that is on the disk its result only tells whether [rmtree] raised, and the
    call of [rmtree] is its last; the path is not looked at again. *)
Theorem delete_case_folder_basic_trusts_rmtree :
  forall (case : CaseData) (w : World) (p : string) (w1 : World) (t1 : list call)
         (o : outcome unit) (w2 : World),
    get_case_folder_path self (case_id case) w = (Returned (Some p), w1, t1) ->
    p <> "" ->
    os_path_exists (disk self) p w1 = true ->
    shutil_rmtree (disk self) p w1 = (o, w2) ->
    _delete_case_folder_basic self case w
    = (Returned (match o with Returned _ => true | Raised _ => false end), w2,
       t1 ++ [os_path_exists_call p true; shutil_rmtree_call p]).
Proof.
  intros case w p w1 t1 o w2 Hpath Hp Hex Hrm.
  unfold _delete_case_folder_basic. unfold try_except at 1. unfold bind at 1.
  rewrite Hpath. apply String.eqb_neq in Hp. rewrite Hp. cbn.
  unfold_run. rewrite Hex. cbn. rewrite Hrm.
  destruct o as [[] | e]; cbn; rewrite ?app_nil_r; reflexivity.
Qed.

(** X16. A controller whose folder manager has neither [operations] nor
    [get_case_folder_info] never reports a folder as existing; and whenever
    the path of the record resolves to a non-empty text, what
    [get_case_folder_info] returns is the dictionary of its handler, with no
    path and the text of the error. *)
Theorem get_case_folder_info_fallback_never_exists :
  forall (D : Type) (ops_info : FolderOperations World -> CaseData -> method World D)
         (message cid : string) (w : World),
    fm_operations (folder_manager self) = None ->
    (exists path error,
        result (get_case_folder_info self ops_info None message cid w)
        = Returned (Built_in false path error)) /\
    (forall case w1 p w2 t2,
        dm_get_case_by_id (data_manager self) cid w = (Returned (Some case), w1) ->
        get_case_folder_path self cid w1 = (Returned (Some p), w2, t2) ->
        p <> "" ->
        result (get_case_folder_info self ops_info None message cid w)
        = Returned (Built_in false None (Some message))).
Proof.
  intros D ops_info message cid w Hops. split.
  - unfold get_case_folder_info, get_case_by_id. rewrite Hops.
    unfold try_except at 1. unfold bind at 1. unfold invoke at 1.
    destruct (dm_get_case_by_id (data_manager self) cid w) as [[[case |] | e] w1];
      cbn; eauto.
    unfold bind.
    destruct (get_case_folder_path self cid w1) as [[[[p |] | e] w2] t2]; cbn; eauto.
    destruct (p =? ""); cbn; eauto.
  - intros case w1 p w2 t2 Hget Hpath Hp.
    unfold get_case_folder_info, get_case_by_id. rewrite Hops.
    unfold try_except at 1. unfold bind at 1. unfold invoke at 1. rewrite Hget.
    cbn. unfold bind. rewrite Hpath. cbn.
    apply String.eqb_neq in Hp. now rewrite Hp.
Qed.

(** X17. On the list the data manager gives, [get_case_by_id_and_type]
    returns a record of that list with that id and that type, or [None] when
    the list has none. *)
Theorem get_case_by_id_and_type_sound_and_complete :
  forall (cid ctype : string) (w : World) (l : list CaseData) (w1 : World),
    dm_get_cases (data_manager self) w = (Returned l, w1) ->
    (forall c,
        result (get_case_by_id_and_type self cid ctype w) = Returned (Some c) ->
        In c l /\ case_id c = cid /\ case_type c = ctype) /\
    (result (get_case_by_id_and_type self cid ctype w) = Returned None <->
     forall c, In c l -> case_id c = cid -> case_type c <> ctype).
Proof.
  intros cid ctype w l w1 Hget.
  unfold get_case_by_id_and_type, get_cases. unfold_run. rewrite Hget. cbn.
  destruct (find (fun case => (case_id case =? cid) && (case_type case =? ctype)) l)
    as [c0 |] eqn:Hfind.
  - apply find_some in Hfind as [Hin Hmatch].
    apply andb_true_iff in Hmatch as [H1 H2]. apply String.eqb_eq in H1, H2.
    split.
    + intros c [= <-]. auto.
    + split; [discriminate |]. intros H. now elim (H c0 Hin H1).
  - split; [discriminate |]. split; [| reflexivity].
    intros _ c Hin Hid Hty.
    pose proof (find_none _ _ Hfind c Hin) as Hno. cbn in Hno.
    apply String.eqb_eq in Hid, Hty. rewrite Hid, Hty in Hno. discriminate.
Qed.

(** X18. On the list the data manager gives, [get_cases_by_type] and
    [get_cases_by_progress] return exactly its records of that type and of
    that progress, and a record [get_case_by_id_and_type] finds is among those
    [get_cases_by_type] returns for its type. *)
Theorem get_cases_by_type_and_progress_select :
  forall (ctype p : string) (w : World) (l : list CaseData) (w1 : World),
    dm_get_cases (data_manager self) w = (Returned l, w1) ->
    exists by_type by_progress,
      result (get_cases_by_type self ctype w) = Returned by_type /\
      result (get_cases_by_progress self p w) = Returned by_progress /\
      (forall c, In c by_type <-> In c l /\ case_type c = ctype) /\
      (forall c, In c by_progress <-> In c l /\ progress c = p) /\
      (forall cid c,
          result (get_case_by_id_and_type self cid ctype w) = Returned (Some c) ->
          In c by_type).
Proof.
  intros ctype p w l w1 Hget.
  unfold get_cases_by_type, get_cases_by_progress, get_case_by_id_and_type, get_cases.
  unfold_run. rewrite Hget. cbn.
  eexists; eexists. split; [reflexivity |]. split; [reflexivity |].
  split; [| split].
  - intros c. rewrite filter_In, String.eqb_eq. tauto.
  - intros c. rewrite filter_In, String.eqb_eq. tauto.
  - intros cid c [= Hfind]. apply find_some in Hfind as [Hin Hmatch].
    apply andb_true_iff in Hmatch as [_ H2].
    apply filter_In. auto.
Qed.

(** A list that raises gives the empty list. *)
Lemma get_cases_by_type_on_exception (ctype : string) (w : World) (e : exn) (w1 : World) :
  dm_get_cases (data_manager self) w = (Raised e, w1) ->
  get_cases_by_type self ctype w = (Returned [], w1, [dm_get_cases_call]).
Proof.
  intros Hget. unfold get_cases_by_type, get_cases. unfold_run. now rewrite Hget.
Qed.

(** X21. A controller with the basic folder manager creates no folder:
    [add_case] calls nothing but the data manager, and
    [create_case_folder_structure] returns false without touching the world. *)
Theorem basic_manager_creates_no_folder :
  forall (table : Dict.dict) (base : string) (case_data : CaseData) (w : World),
    folder_manager self = _create_basic_folder_manager (disk self) table base ->
    trace (add_case self case_data w) = [dm_add_case_call] /\
    create_case_folder_structure self case_data w = (Returned false, w, []).
Proof.
  intros table base case_data w Hfm.
  unfold add_case, create_case_folder_structure. rewrite Hfm.
  unfold _create_basic_folder_manager. cbn. unfold_run. cbn. split; [| reflexivity].
  destruct (dm_add_case (data_manager self) case_data w) as [[[|] | e] w1]; reflexivity.
Qed.

(** X22. [update_case_id] takes its steps in order and stops at the first
    that fails: its trace is a beginning of the four calls, the rename is
    called only after a validation that returned true, and a true result
    means all four were made. *)
Theorem update_case_id_steps_in_order :
  forall (old_id ctype new_id : string) (w : World),
    let r := update_case_id self old_id ctype new_id w in
    let steps :=
      [validate_case_id_update_call; dm_update_case_id_with_files_call;
       update_excel_content_call; update_progress_files_call] in
    (exists n, 1 <= n /\ trace r = firstn n steps) /\
    (In dm_update_case_id_with_files_call (trace r) ->
     exists m w1,
       validate_case_id_update (validator self) old_id ctype new_id w
       = (Returned (true, m), w1)) /\
    (forall msg, result r = Returned (true, msg) -> trace r = steps).
Proof.
  intros old_id ctype new_id w r steps. subst r steps.
  unfold update_case_id. run_cases; repeat split;
    try (intros; discriminate); try reflexivity;
    try (exists 1; split; [lia | reflexivity]); try (exists 2; split; [lia | reflexivity]);
    try (exists 3; split; [lia | reflexivity]); try (exists 4; split; [lia | reflexivity]);
    try (intros; eauto; fail);
    try (cbn; intros H; repeat destruct H as [H | H]; try discriminate; now elim H).
Qed.

End MoreSagas.

(** *** Paths and the choice of the folder manager *)
Section Paths.
Variable World : Type.
Variable os : Disk World.
Variable table : Dict.dict.

Lemma ends_with_sep_app (a b : string) :
  b <> "" -> ends_with_sep (a ++ b)%string = ends_with_sep b.
Proof.
  intros Hb. induction a as [| c a IH]; [reflexivity |].
  simpl. rewrite IH. destruct (a ++ b)%string eqn:E; [| reflexivity].
  destruct a; simpl in E; [now elim Hb | discriminate].
Qed.

Lemma os_path_join_absolute_last (a b c : string) :
  starts_with_sep c = true -> os_path_join a [b; c] = c.
Proof. intros H. unfold os_path_join. simpl. unfold join_step at 1. now rewrite H. Qed.

Lemma join_step_plain (path b : string) :
  path <> "" -> ends_with_sep path = false -> starts_with_sep b = false ->
  join_step path b = (path ++ "/" ++ b)%string.
Proof.
  intros Hp Hp' Hb. unfold join_step. rewrite Hb, Hp'.
  apply String.eqb_neq in Hp. now rewrite Hp.
Qed.

Lemma append_assoc (a b c : string) : ((a ++ b) ++ c = a ++ b ++ c)%string.
Proof. induction a as [| x a IH]; simpl; [reflexivity | now rewrite IH]. Qed.

Lemma os_path_join_plain (a b c : string) :
  a <> "" -> ends_with_sep a = false ->
  b <> "" -> starts_with_sep b = false -> ends_with_sep b = false ->
  starts_with_sep c = false ->
  os_path_join a [b; c] = (a ++ "/" ++ b ++ "/" ++ c)%string.
Proof.
  intros Ha Ha' Hb Hb' Hb'' Hc. unfold os_path_join. cbn [fold_left].
  rewrite (join_step_plain a b Ha Ha' Hb').
  rewrite join_step_plain.
  - now rewrite !append_assoc.
  - destruct a; [now elim Ha | discriminate].
  - rewrite ends_with_sep_app by (destruct b; discriminate).
    now rewrite (ends_with_sep_app "/" b Hb).
  - exact Hc.
Qed.

(** X19. For a record whose client begins with "/", both resolvers compute
    the client itself as the folder path: the data folder and the folder of
    the case type play no part. *)
Theorem absolute_client_replaces_folder_path :
  forall (base : string) (case : CaseData) (w : World),
    starts_with_sep (client case) = true ->
    patched_get_case_folder_path table base case w = (Returned (Some (client case)), w) /\
    basic_get_case_folder_path os table base case w
    = (Returned (if os_path_exists os (client case) w then Some (client case) else None), w).
Proof.
  intros base case w H.
  unfold patched_get_case_folder_path, basic_get_case_folder_path.
  cbv zeta. now rewrite (os_path_join_absolute_last _ _ _ H).
Qed.

(** X20. For a data folder, a folder of the case type and a client that are
    plain (none starts with "/", the first two are not empty and do not end
    with "/"), the path the resolvers compute is the three joined by "/"; an
    empty client gives the folder of the case type with a "/" after it. *)
Theorem plain_folder_path :
  forall (base : string) (case : CaseData) (w : World),
    base <> "" -> ends_with_sep base = false ->
    case_type_folder table case <> "" ->
    starts_with_sep (case_type_folder table case) = false ->
    ends_with_sep (case_type_folder table case) = false ->
    starts_with_sep (client case) = false ->
    patched_get_case_folder_path table base case w
    = (Returned
         (Some (base ++ "/" ++ case_type_folder table case ++ "/" ++ client case)%string),
       w).
Proof.
  intros base case w H1 H2 H3 H4 H5 H6. unfold patched_get_case_folder_path.
  now rewrite os_path_join_plain.
Qed.

End Paths.

(** *** The same on the small world *)

(** The two managers of the small world are what [__init__] settles on
    when the new manager does not import: the old manager, patched, and, when
    that does not import either, the basic one. *)
Example init_folder_manager_on_the_small_world :
  init_folder_manager Demo.demo_disk Demo.demo_table "data"
    (Import_failed Demo.World) (Constructed Demo.old_folder_manager) true true
  = inl Demo.patched_folder_manager /\
  init_folder_manager Demo.demo_disk Demo.demo_table "data"
    (Import_failed Demo.World) (Import_failed Demo.World) true true
  = inl Demo.basic_folder_manager.
Proof. split; reflexivity. Qed.

Lemma delete_case_not_found_touches_nothing_witness :
  delete_case_with (Demo.controller Demo.patched_folder_manager true true true)
    Demo.raising_step "ZZ" None true ["data/civil/Mr. X"]
  = (Returned false, ["data/civil/Mr. X"], [dm_get_case_by_id_call]) /\
  delete_case_with (Demo.controller Demo.patched_folder_manager true true true)
    Demo.raising_step "A1" (Some "criminal") true ["data/civil/Mr. X"]
  = (Returned false, ["data/civil/Mr. X"], [dm_get_cases_call]).
Proof.
  destruct (delete_case_not_found_touches_nothing Demo.World
              (Demo.controller Demo.patched_folder_manager true true true)
              Demo.raising_step "ZZ" true ["data/civil/Mr. X"]) as [Hid _].
  destruct (delete_case_not_found_touches_nothing Demo.World
              (Demo.controller Demo.patched_folder_manager true true true)
              Demo.raising_step "A1" true ["data/civil/Mr. X"]) as [_ Htype].
  split.
  - refine (Hid (Returned None) _ eq_refl _). discriminate.
  - refine (Htype "criminal" (Returned [Samples.fresh]) _ eq_refl _).
    intros l case [= <-] [<- | []] _. discriminate.
Defined.

Lemma delete_case_without_folder_deletion_witness :
  find_case_to_delete (Demo.controller Demo.patched_folder_manager true true true)
    "A1" None ["data/civil/Mr. X"]
  = (Returned (Some (Samples.fresh, "civil")), ["data/civil/Mr. X"],
     [dm_get_case_by_id_call]) /\
  delete_case_with (Demo.controller Demo.patched_folder_manager true true true)
    Demo.raising_step "A1" None false ["data/civil/Mr. X"]
  = (Returned true, ["data/civil/Mr. X"],
     [dm_get_case_by_id_call; dm_delete_case_call "A1" "civil"]).
Proof.
  split; [reflexivity |].
  exact (delete_case_without_folder_deletion Demo.World
           (Demo.controller Demo.patched_folder_manager true true true)
           Demo.raising_step "A1" None ["data/civil/Mr. X"] Samples.fresh "civil"
           ["data/civil/Mr. X"] [dm_get_case_by_id_call] (Returned true)
           ["data/civil/Mr. X"] eq_refl eq_refl).
Defined.

Lemma delete_case_folder_basic_manager_absent_witness :
  os_path_exists Demo.demo_disk "data/civil/Mr. X" [] = false /\
  delete_case_folder (Demo.controller Demo.basic_folder_manager true true true) "A1" []
  = (Returned false, [], [dm_get_case_by_id_call; fm_get_case_folder_path_call]) /\
  result (delete_case_folder (Demo.controller Demo.patched_folder_manager true true true)
            "A1" [])
  = Returned true.
Proof.
  split; [reflexivity |]. split; [| reflexivity].
  exact (delete_case_folder_basic_manager_absent Demo.World
           (Demo.controller Demo.basic_folder_manager true true true)
           Demo.demo_table "data" "A1" [] Samples.fresh [] eq_refl eq_refl eq_refl).
Defined.

(** On the sticky disk [_delete_case_folder_basic] returns true with the
    folder still there, where [delete_case_folder] returns false. *)
Lemma delete_case_folder_basic_trusts_rmtree_witness :
  _delete_case_folder_basic DemoMore.sticky_controller Samples.fresh ["data/civil/Mr. X"]
  = (Returned true, ["data/civil/Mr. X"],
     [dm_get_case_by_id_call; fm_get_case_folder_path_call;
      os_path_exists_call "data/civil/Mr. X" true;
      shutil_rmtree_call "data/civil/Mr. X"]) /\
  os_path_exists DemoMore.sticky_disk "data/civil/Mr. X" ["data/civil/Mr. X"] = true /\
  result (delete_case_folder DemoMore.sticky_controller "A1" ["data/civil/Mr. X"])
  = Returned false.
Proof.
  split; [| split; reflexivity].
  refine (delete_case_folder_basic_trusts_rmtree Demo.World DemoMore.sticky_controller
            Samples.fresh ["data/civil/Mr. X"] "data/civil/Mr. X" ["data/civil/Mr. X"]
            [dm_get_case_by_id_call; fm_get_case_folder_path_call] (Returned tt)
            ["data/civil/Mr. X"] eq_refl _ eq_refl eq_refl).
  discriminate.
Defined.

Lemma get_case_folder_info_fallback_never_exists_witness :
  fm_operations
    (folder_manager (Demo.controller Demo.patched_folder_manager true true true)) = None /\
  os_path_exists Demo.demo_disk "data/civil/Mr. X" ["data/civil/Mr. X"] = true /\
  result (get_case_folder_info (Demo.controller Demo.patched_folder_manager true true true)
            (fun _ _ => Demo.answer tt) None "os is unbound" "A1" ["data/civil/Mr. X"])
  = Returned (Built_in false None (Some "os is unbound")).
Proof.
  split; [reflexivity |]. split; [reflexivity |].
  refine (proj2 (get_case_folder_info_fallback_never_exists Demo.World
                   (Demo.controller Demo.patched_folder_manager true true true)
                   unit (fun _ _ => Demo.answer tt) "os is unbound" "A1"
                   ["data/civil/Mr. X"] eq_refl)
            Samples.fresh ["data/civil/Mr. X"] "data/civil/Mr. X" ["data/civil/Mr. X"]
            [dm_get_case_by_id_call; fm_get_case_folder_path_call] eq_refl eq_refl _).
  discriminate.
Defined.

Lemma get_case_by_id_and_type_sound_and_complete_witness :
  dm_get_cases (data_manager (Demo.controller Demo.basic_folder_manager true true true)) []
  = (Returned [Samples.fresh], []) /\
  result (get_case_by_id_and_type
            (Demo.controller Demo.basic_folder_manager true true true) "A1" "criminal" [])
  = Returned None /\
  case_type Samples.fresh = "civil".
Proof.
  split; [reflexivity |].
  pose proof (get_case_by_id_and_type_sound_and_complete Demo.World
                (Demo.controller Demo.basic_folder_manager true true true)
                "A1" "civil" [] [Samples.fresh] [] eq_refl) as [Hsound _].
  pose proof (get_case_by_id_and_type_sound_and_complete Demo.World
                (Demo.controller Demo.basic_folder_manager true true true)
                "A1" "criminal" [] [Samples.fresh] [] eq_refl) as [_ Hnone].
  split.
  - apply Hnone. intros c [<- | []] _. discriminate.
  - exact (proj2 (proj2 (Hsound Samples.fresh eq_refl))).
Defined.

Lemma get_cases_by_type_and_progress_select_witness :
  dm_get_cases (data_manager (Demo.controller Demo.basic_folder_manager true true true)) []
  = (Returned [Samples.fresh], []) /\
  exists by_type,
    result (get_cases_by_type (Demo.controller Demo.basic_folder_manager true true true)
              "civil" [])
    = Returned by_type /\
    In Samples.fresh by_type.
Proof.
  split; [reflexivity |].
  destruct (get_cases_by_type_and_progress_select Demo.World
              (Demo.controller Demo.basic_folder_manager true true true)
              "civil" "filed" [] [Samples.fresh] [] eq_refl)
    as (by_type & by_progress & Ht & _ & _ & _ & Hfound).
  exists by_type. split; [exact Ht |]. exact (Hfound "A1" Samples.fresh eq_refl).
Defined.

Lemma absolute_client_replaces_folder_path_witness :
  starts_with_sep (client DemoMore.absolute_client) = true /\
  patched_get_case_folder_path Demo.demo_table "data" DemoMore.absolute_client []
  = (Returned (Some "/etc"), @nil string).
Proof.
  split; [reflexivity |].
  exact (proj1 (absolute_client_replaces_folder_path Demo.World Demo.demo_disk
                  Demo.demo_table "data" DemoMore.absolute_client [] eq_refl)).
Defined.

Lemma plain_folder_path_witness :
  patched_get_case_folder_path Demo.demo_table "data" Samples.fresh []
  = (Returned (Some "data/civil/Mr. X"), @nil string).
Proof.
  refine (plain_folder_path Demo.World Demo.demo_table "data" Samples.fresh []
            _ eq_refl _ eq_refl eq_refl eq_refl); discriminate.
Defined.

Lemma basic_manager_creates_no_folder_witness :
  trace (add_case (Demo.controller Demo.basic_folder_manager true true true)
           Samples.fresh [])
  = [dm_add_case_call] /\
  create_case_folder_structure (Demo.controller Demo.basic_folder_manager true true true)
    Samples.fresh []
  = (Returned false, [], []).
Proof.
  exact (basic_manager_creates_no_folder Demo.World
           (Demo.controller Demo.basic_folder_manager true true true)
           Demo.demo_table "data" Samples.fresh [] eq_refl).
Defined.

End ControllerMoreFacts.

(** ** The endpoints of [api/render_main.py] *)
Module RenderMainFacts.
Import Py CaseModel Controller RenderMain.

Section EndpointFacts.
Variable World : Type.
Variable process_message : string -> string -> method World Dict.dict.
Variable str_of_http : nat -> string -> string.

(** X24. [handle_line_webhook] never answers with status 503: without a
    controller the 503 its body raises is caught by its own handler and
    leaves as status 500, and with a controller it always responds, whatever
    the message logic does. [get_case_detail], which hands an [HTTPException]
    on, does answer 503 without a controller. *)
Theorem webhook_unavailable_is_status_500 :
  forall (events : list LineWebhookEvent) (cid : string) (w : World),
    handle_line_webhook process_message str_of_http (@None (CaseController World)) events w
    = (HTTPException 500 (str_of_http 503 "系統服務不可用"), w) /\
    (forall (c : CaseController World),
        exists r, fst (handle_line_webhook process_message str_of_http (Some c) events w)
                  = Responded r /\ success r = true) /\
    get_case_detail None cid w = (HTTPException 503 "系統服務不可用", w).
Proof.
  intros events cid w. split; [reflexivity |]. split; [| reflexivity].
  intros c. unfold handle_line_webhook.
  destruct (answer_first_text process_message events w) as [r w1] eqn:E. cbn.
  exists r. split; [reflexivity |].
  revert w r w1 E. induction events as [| ev rest IH]; intros w r w1; cbn.
  - now intros [= <- <-].
  - destruct (text_of ev); [| apply IH].
    destruct (process_user_message process_message _ _ w). now intros [= <- <-].
Qed.

(** X25. [handle_line_webhook] answers the first text message of a request
    and no other: the events before it are skipped, and the events after it
    play no part in the response or in the world it leaves. *)
Theorem webhook_answers_first_text_message :
  forall (c : CaseController World) (before after : list LineWebhookEvent)
         (event : LineWebhookEvent) (message_text : string) (w : World),
    (forall e, In e before -> text_of e = None) ->
    text_of event = Some message_text ->
    handle_line_webhook process_message str_of_http (Some c) (before ++ event :: after) w
    = handle_line_webhook process_message str_of_http (Some c) [event] w.
Proof.
  intros c before after event message_text w Hbefore Hev.
  unfold handle_line_webhook.
  assert (H : answer_first_text process_message (before ++ event :: after) w
              = answer_first_text process_message [event] w).
  { induction before as [| e before IH]; cbn.
    - now rewrite Hev.
    - rewrite (Hbefore e) by now left.
      apply IH. intros e' He'. apply Hbefore. now right. }
  now rewrite H.
Qed.

(** X26. With a controller whose list of records comes back,
    [get_case_detail] answers 404 exactly when no record of the list has the
    id, and otherwise responds with the fields of a record of the list that
    has it; when the list raises it answers 500. *)
Theorem get_case_detail_status :
  forall (c : CaseController World) (cid : string) (w : World),
    (forall l w1,
        dm_get_cases (data_manager c) w = (Returned l, w1) ->
        (get_case_detail (Some c) cid w = (HTTPException 404 "案件不存在", w1) <->
         forall case, In case l -> case_id case <> cid) /\
        (forall r,
            fst (get_case_detail (Some c) cid w) = Responded r ->
            exists case d,
              In case l /\ case_id case = cid /\ data r = Some d /\
              detail_case_id d = cid /\ detail_client d = client case /\
              detail_progress d = progress case)) /\
    (forall e w1,
        dm_get_cases (data_manager c) w = (Raised e, w1) ->
        get_case_detail (Some c) cid w = (HTTPException 500 (str_of_exn e), w1)).
Proof.
  intros c cid w. split.
  - intros l w1 Hget. unfold get_case_detail, get_cases, invoke. rewrite Hget.
    destruct (find (fun case => case_id case =? cid) l) as [case |] eqn:Hfind.
    + apply find_some in Hfind as [Hin Hid]. apply String.eqb_eq in Hid. split.
      * split; [discriminate |]. intros H. now elim (H case Hin).
      * intros r [= <-]. eexists case, _. cbn. repeat split; auto.
    + split; [| discriminate]. split; [| reflexivity].
      intros _ case Hin Hid. pose proof (find_none _ _ Hfind case Hin) as Hno.
      cbn in Hno. apply String.eqb_neq in Hno. contradiction.
  - intros e w1 Hget. unfold get_case_detail, get_cases, invoke. now rewrite Hget.
Qed.

End EndpointFacts.

Lemma webhook_answers_first_text_message_witness :
  fst (handle_line_webhook (World := Demo.World)
         (fun _ m => Demo.answer [("text", m)]) (fun _ d => d)
         (Some (Demo.controller Demo.basic_folder_manager true true true))
         [ {| event_type := "follow"; message := None; replyToken := "t0"; source := [] |};
           {| event_type := "message";
              message := Some {| message_type := "text"; text := "A1" |};
              replyToken := "t1"; source := [("userId", "U1")] |};
           {| event_type := "message";
              message := Some {| message_type := "text"; text := "A2" |};
              replyToken := "t2"; source := [] |} ]
         [])
  = Responded {| success := true; response_message := "處理成功";
                 data := Some {| reply_text := "A1"; reply_token := "t1" |} |}.
Proof.
  refine (f_equal fst (webhook_answers_first_text_message Demo.World
             (fun _ m => Demo.answer [("text", m)]) (fun _ d => d)
             (Demo.controller Demo.basic_folder_manager true true true)
             [ {| event_type := "follow"; message := None; replyToken := "t0";
                  source := [] |} ]
             [ {| event_type := "message";
                  message := Some {| message_type := "text"; text := "A2" |};
                  replyToken := "t2"; source := [] |} ]
             {| event_type := "message";
                message := Some {| message_type := "text"; text := "A1" |};
                replyToken := "t1"; source := [("userId", "U1")] |}
             "A1" [] _ _)).
  - intros e [<- | []]. reflexivity.
  - reflexivity.
Defined.

End RenderMainFacts.
